(** * The aggregator's dispatch loop, task registry and submission path

    A shallow embedding of [aggregator/aggregator.go]: the [Aggregator]
    struct, [processTaskCreatedLog], [sendAggregatedResponseToContract]
    and the [select] loop of [Start].

    The collaborators the aggregator holds as interface values (logger,
    [chainio.AvsWriterer], [chainio.AvsSubscriberer],
    [blsagg.BlsAggregationService]) are not part of the embedded code.
    Every call to one of them is appended to a trace, and what the call
    returns is given by an oracle that sees the whole history of calls.
    A Go [panic] is an outcome of its own, next to normal completion. *)

From Stdlib Require Import ZArith String List Lia.
From stdpp Require Import base option list gmap strings.
Import ListNotations.

Local Open Scope string_scope.
Local Open Scope list_scope.

(** ** Types of the imported packages *)

(** A Go [error] interface value: [None] is [nil]. *)
Abbreviation error := (option string) (only parsing).

(** [time.Duration] is an [int64] count of nanoseconds. *)
Abbreviation Duration := Z (only parsing).

(** A Go channel, by identity. *)
Abbreviation Chan := Z (only parsing).

(** An [event.Subscription] handle, by identity. *)
Abbreviation Subscription := Z (only parsing).

Module time.
Definition Nanosecond : Duration := 1%Z.
Definition Microsecond : Duration := (1000 * Nanosecond)%Z.
Definition Millisecond : Duration := (1000 * Microsecond)%Z.
Definition Second : Duration := (1000 * Millisecond)%Z.
End time.

Module types.
(** [types.TaskIndex = uint32]. *)
Abbreviation TaskIndex := Z (only parsing).
End types.

(** What [aggregator.go] takes from other packages without looking
    inside: the curve points of [bls], their contract-side counterparts
    with the two converters of [core], and the quorum types of [sdktypes]
    with the Go conversions [sdktypes.QuorumNum(b)] from a byte and
    [sdktypes.QuorumThresholdPercentage(p)] from a [uint32], and the zero
    value that [make] fills a fresh slice of thresholds with. *)
Class Imports := {
  bls_G1Point : Type;
  bls_G2Point : Type;
  BN254G1Point : Type;
  BN254G2Point : Type;
  ConvertToBN254G1Point : bls_G1Point -> BN254G1Point;
  ConvertToBN254G2Point : bls_G2Point -> BN254G2Point;
  sdk_QuorumNum : Type;
  sdk_QuorumThresholdPercentage : Type;
  to_QuorumNum : Z -> sdk_QuorumNum;
  to_QuorumThresholdPercentage : Z -> sdk_QuorumThresholdPercentage;
  zero_QuorumThresholdPercentage : sdk_QuorumThresholdPercentage
}.

Module sdktypes.
(** [sdktypes.TaskResponseDigest] is a 32-byte array, kept as the
    256-bit number it spells. *)
Abbreviation TaskResponseDigest := Z (only parsing).
End sdktypes.

Module bls.
Section defs.
Context `{Imports}.
(** [bls.Signature] embeds a [*G1Point]. *)
Record Signature := { G1Point : bls_G1Point }.
End defs.
End bls.

Module cstaskmanager.
(** The task as the contract binding declares it. [NumberToBeSquared]
    is a [*big.Int]; [QuorumNumbers] is a [[]byte]. *)
Record IIncredibleSquaringTaskManagerTask := {
  NumberToBeSquared : option Z;
  TaskCreatedBlock : Z;
  QuorumNumbers : list Z;
  QuorumThresholdPercentage : Z
}.

Record IIncredibleSquaringTaskManagerTaskResponse := {
  ReferenceTaskIndex : Z;
  NumberSquared : option Z
}.

Record ContractIncredibleSquaringTaskManagerNewTaskCreated := {
  TaskIndex : types.TaskIndex;
  Task : IIncredibleSquaringTaskManagerTask
}.

Record ContractIncredibleSquaringTaskManagerTaskResponded := {
  TaskResponse : IIncredibleSquaringTaskManagerTaskResponse
}.

Section defs.
Context `{Imports}.
Record IBLSSignatureCheckerNonSignerStakesAndSignature := {
  NonSignerQuorumBitmapIndices : list Z;
  NonSignerPubkeys : list BN254G1Point;
  QuorumApks : list BN254G1Point;
  ApkG2 : BN254G2Point;
  Sigma : BN254G1Point;
  QuorumApkIndices : list Z;
  TotalStakeIndices : list Z;
  NonSignerStakeIndices : list (list Z)
}.
End defs.

(** What a Go map lookup yields for a missing key. *)
Definition zero_Task : IIncredibleSquaringTaskManagerTask :=
  {| NumberToBeSquared := None; TaskCreatedBlock := 0%Z;
     QuorumNumbers := []; QuorumThresholdPercentage := 0%Z |}.

Definition zero_TaskResponse : IIncredibleSquaringTaskManagerTaskResponse :=
  {| ReferenceTaskIndex := 0%Z; NumberSquared := None |}.
End cstaskmanager.

Module blsagg.
Section defs.
Context `{Imports}.
(** The result the aggregation service delivers. The points it points to
    are values here: a result has them set, none is a nil pointer. *)
Record BlsAggregationServiceResponse := {
  Err : error;
  TaskIndex : types.TaskIndex;
  TaskResponseDigest : sdktypes.TaskResponseDigest;
    NonSignersPubkeysG1 : list bls_G1Point;
    QuorumApksG1 : list bls_G1Point;
    SignersApkG2 : bls_G2Point;
    SignersAggSigG1 : bls.Signature;
  NonSignerQuorumBitmapIndices : list Z;
  QuorumApkIndices : list Z;
  TotalStakeIndices : list Z;
  NonSignerStakeIndices : list (list Z)
}.
End defs.
End blsagg.

Abbreviation Task := cstaskmanager.IIncredibleSquaringTaskManagerTask (only parsing).
Abbreviation TaskResponse :=
  cstaskmanager.IIncredibleSquaringTaskManagerTaskResponse (only parsing).
Abbreviation NewTaskCreated :=
  cstaskmanager.ContractIncredibleSquaringTaskManagerNewTaskCreated (only parsing).
Abbreviation TaskResponded :=
  cstaskmanager.ContractIncredibleSquaringTaskManagerTaskResponded (only parsing).
Abbreviation NonSignerStakesAndSignature :=
  cstaskmanager.IBLSSignatureCheckerNonSignerStakesAndSignature (only parsing).

(** ** Constants of the package *)

Definition taskChallengeWindowBlock : Z := 100.
Definition blockTimeSeconds : Duration := (12 * time.Second)%Z.
Definition avsName : string := "incredible-squaring".

(** ** The aggregator and its effects *)

Section Aggregator.
Context `{Imports}.

(** The data fields of the [Aggregator] struct. The two mutexes guard
    one map access each and no call is made while one is held, so a
    critical section is one atomic step of the dispatch loop. *)
Record Aggregator := {
  serverIpPortAddr : string;
  newTaskCreatedChan : Chan;
  newTaskRespondedChan : Chan;
  tasks : gmap Z Task;
  taskResponses : gmap Z (gmap Z TaskResponse)
}.

(** A call that leaves the package. Of a log call the level, the
    message and, for [Error], the error value are kept. *)
Inductive Call :=
| LogInfo (msg : string)
| LogError (msg : string) (err : error)
| GoStartServer
| SubscribeToNewTasks (ch : Chan)
| SubscribeToTaskResponses (ch : Chan)
| Unsubscribe (sub : Subscription)
| InitializeNewTask (taskIndex : types.TaskIndex) (taskCreatedBlock : Z)
    (quorumNumbers : list sdk_QuorumNum)
    (quorumThresholdPercentages : list sdk_QuorumThresholdPercentage)
    (timeToExpiry : Duration)
| SendAggregatedResponse (task : Task) (taskResponse : TaskResponse)
    (nonSignerStakesAndSignature : NonSignerStakesAndSignature).

(** What the collaborators answer. Each oracle is given the history of
    calls up to and including the one it answers. *)
Record Services := {
  SubscribeToNewTasks_ret : list Call -> Subscription;
  SubscribeToTaskResponses_ret : list Call -> Subscription;
  InitializeNewTask_ret : list Call -> error;
  SendAggregatedResponse_ret : list Call -> error
}.

Record State := { agg : Aggregator; trace : list Call }.

Inductive Outcome (A : Type) :=
| Done (a : A) (s : State)
| Panic (v : error) (s : State).
Arguments Done {A} a s.
Arguments Panic {A} v s.

Definition M (A : Type) : Type := State -> Outcome A.

Definition ret {A} (a : A) : M A := fun s => Done a s.

Definition bind {A B} (m : M A) (k : A -> M B) : M B :=
  fun s => match m s with
           | Done a s' => k a s'
           | Panic v s' => Panic v s'
           end.

Definition panic {A} (v : error) : M A := fun s => Panic v s.

Definition get_agg : M Aggregator := fun s => Done (agg s) s.

Definition put_agg (a : Aggregator) : M unit :=
  fun s => Done tt {| agg := a; trace := trace s |}.

(** Performs a call and returns the oracle's answer to it. *)
Definition call {R} (oracle : list Call -> R) (c : Call) : M R :=
  fun s => let h := trace s ++ [c] in
           Done (oracle h) {| agg := agg s; trace := h |}.

(** Performs a call that returns nothing the code uses. *)
Definition perform (c : Call) : M unit := call (fun _ => tt) c.
End Aggregator.

Arguments Done {_ A} a s.
Arguments Panic {_ A} v s.

#[global] Instance M_ret `{Imports} : MRet M := @ret _.
#[global] Instance M_bind `{Imports} : MBind M := fun A B k m => bind m k.

(** ** [NewAggregator] *)

(** The struct literal that [NewAggregator] returns once the reader, the
    writer, the subscriber and the sdk clients have all been built: both
    maps are fresh and empty. The two channels made there are passed in. *)
Definition NewAggregator `{Imports} (AggregatorServerIpPortAddr : string)
    (chCreated chResponded : Chan) : Aggregator :=
  {| serverIpPortAddr := AggregatorServerIpPortAddr;
     newTaskCreatedChan := chCreated;
     newTaskRespondedChan := chResponded;
     tasks := ∅;
     taskResponses := ∅ |}.

(** ** The methods *)

Section Methods.
Context `{Imports} (svc : Services).

(** The aggregator once [agg.tasks[k] = v] has run: a Go map assignment
    adds the key or replaces the value it had. *)
Definition with_task (a : Aggregator) (k : types.TaskIndex) (v : Task)
    : Aggregator :=
  {| serverIpPortAddr := serverIpPortAddr a;
     newTaskCreatedChan := newTaskCreatedChan a;
     newTaskRespondedChan := newTaskRespondedChan a;
     tasks := <[k := v]> (tasks a);
     taskResponses := taskResponses a |}.

(** [agg.tasks[k] = v], the body of the critical section of [tasksMu]. *)
Definition store_task (k : types.TaskIndex) (v : Task) : M unit :=
  a ← get_agg;
  put_agg (with_task a k v).

(** [agg.tasks[k]]: a missing key reads as the zero value. *)
Definition load_task (k : types.TaskIndex) : M Task :=
  a ← get_agg;
  mret (default cstaskmanager.zero_Task (tasks a !! k)).

(** [agg.taskResponses[k][d]]: a missing outer key reads as the nil map,
    and a lookup in the nil map reads as the zero value. *)
Definition load_taskResponse (k : types.TaskIndex)
    (d : sdktypes.TaskResponseDigest) : M TaskResponse :=
  a ← get_agg;
  mret (default cstaskmanager.zero_TaskResponse
          (default ∅ (taskResponses a !! k) !! d)).

(** The first loop of [processTaskCreatedLog]: a slice of [n] zero values
    is made, then index [i] is assigned for every [i] of
    [range QuorumNumbers]. Every index written is in range. *)
Definition quorumThresholdPercentages_of (t : Task)
    : list sdk_QuorumThresholdPercentage :=
  let n := length (cstaskmanager.QuorumNumbers t) in
  fold_left
    (fun qtps i =>
       <[i := to_QuorumThresholdPercentage
                (cstaskmanager.QuorumThresholdPercentage t)]> qtps)
    (seq 0 n)
    (replicate n zero_QuorumThresholdPercentage).

(** The second loop: [append] to a nil slice, one element per byte. *)
Definition quorumNums_of (t : Task) : list sdk_QuorumNum :=
  fold_left (fun quorumNums quorumNum => quorumNums ++ [to_QuorumNum quorumNum])
            (cstaskmanager.QuorumNumbers t) [].

Definition processTaskCreatedLog (taskLog : NewTaskCreated) : M error :=
  store_task (cstaskmanager.TaskIndex taskLog) (cstaskmanager.Task taskLog);;
  let quorumThresholdPercentages :=
    quorumThresholdPercentages_of (cstaskmanager.Task taskLog) in
  let taskTimeToExpiry := (taskChallengeWindowBlock * blockTimeSeconds)%Z in
  let quorumNums := quorumNums_of (cstaskmanager.Task taskLog) in
  err ← call (InitializeNewTask_ret svc)
        (InitializeNewTask
           (cstaskmanager.TaskIndex taskLog)
           (cstaskmanager.TaskCreatedBlock (cstaskmanager.Task taskLog))
           quorumNums
           quorumThresholdPercentages
           taskTimeToExpiry);
  match err with
  | Some _ => mret err
  | None => mret None
  end.

(** The two conversion loops of [sendAggregatedResponseToContract]. *)
Definition convert_points (ps : list bls_G1Point) : list BN254G1Point :=
  fold_left (fun out p => out ++ [ConvertToBN254G1Point p]) ps [].

Definition nonSignerStakesAndSignature_of
    (blsAggServiceResp : blsagg.BlsAggregationServiceResponse)
    : NonSignerStakesAndSignature :=
  let nonSignerPubkeys :=
    convert_points (blsagg.NonSignersPubkeysG1 blsAggServiceResp) in
  let quorumApks := convert_points (blsagg.QuorumApksG1 blsAggServiceResp) in
  {| cstaskmanager.NonSignerPubkeys := nonSignerPubkeys;
     cstaskmanager.QuorumApks := quorumApks;
     cstaskmanager.ApkG2 :=
       ConvertToBN254G2Point (blsagg.SignersApkG2 blsAggServiceResp);
     cstaskmanager.Sigma :=
       ConvertToBN254G1Point
         (bls.G1Point (blsagg.SignersAggSigG1 blsAggServiceResp));
     cstaskmanager.NonSignerQuorumBitmapIndices :=
       blsagg.NonSignerQuorumBitmapIndices blsAggServiceResp;
     cstaskmanager.QuorumApkIndices :=
       blsagg.QuorumApkIndices blsAggServiceResp;
     cstaskmanager.TotalStakeIndices :=
       blsagg.TotalStakeIndices blsAggServiceResp;
     cstaskmanager.NonSignerStakeIndices :=
       blsagg.NonSignerStakeIndices blsAggServiceResp |}.

Definition sendAggregatedResponseToContract
    (blsAggServiceResp : blsagg.BlsAggregationServiceResponse) : M unit :=
  match blsagg.Err blsAggServiceResp with
  | Some _ =>
      perform (LogError "BlsAggregationServiceResponse contains an error"
                    (blsagg.Err blsAggServiceResp));;
      panic (blsagg.Err blsAggServiceResp)
  | None => mret tt
  end;;
  let nonSignerStakesAndSignature :=
    nonSignerStakesAndSignature_of blsAggServiceResp in
  perform (LogInfo "Threshold reached. Sending aggregated response onchain.");;
  task ← load_task (blsagg.TaskIndex blsAggServiceResp);
  taskResponse ← load_taskResponse (blsagg.TaskIndex blsAggServiceResp)
                   (blsagg.TaskResponseDigest blsAggServiceResp);
  err ← call (SendAggregatedResponse_ret svc)
        (SendAggregatedResponse task taskResponse nonSignerStakesAndSignature);
  match err with
  | Some _ => perform (LogError "Aggregator failed to respond to task" err)
  | None => mret tt
  end.

(** ** [Start] *)

(** What one [select] of the loop can receive. The pointers received on
    the two event channels are those the subscriber sends, never nil. *)
Inductive Event :=
| ctx_Done
| subTaskCreated_Err (err : error)
| newTaskCreatedChan_recv (newTaskCreatedLog : NewTaskCreated)
| subTaskResponded_Err (err : error)
| newTaskRespondedChan_recv (taskRespondedLog : TaskResponded)
| ResponseChannel_recv
    (blsAggServiceResp : blsagg.BlsAggregationServiceResponse).

(** The two local variables of [Start]. *)
Record Subs := { subTaskCreated : Subscription; subTaskResponded : Subscription }.

(** How one iteration ends: with the next iteration or with [return]. *)
Inductive Flow :=
| Continue (subs : Subs)
| Return (err : error).

Definition Start_select (ev : Event) (subs : Subs) : M Flow :=
  match ev with
  | ctx_Done => mret (Return None)
  | subTaskCreated_Err err =>
      perform (LogError "Error in websocket subscription for NewTaskCreated" err);;
      perform (Unsubscribe (subTaskCreated subs));;
      a ← get_agg;
      sub ← call (SubscribeToNewTasks_ret svc)
            (SubscribeToNewTasks (newTaskCreatedChan a));
      mret (Continue {| subTaskCreated := sub;
                        subTaskResponded := subTaskResponded subs |})
  | newTaskCreatedChan_recv newTaskCreatedLog =>
      perform (LogInfo "Received new task");;
      err ← processTaskCreatedLog newTaskCreatedLog;
      match err with
      | Some _ => perform (LogError "Failed to process new task" err)
      | None => mret tt
      end;;
      mret (Continue subs)
  | subTaskResponded_Err err =>
      perform (LogError "Error in websocket subscription for TaskResponded" err);;
      perform (Unsubscribe (subTaskResponded subs));;
      a ← get_agg;
      sub ← call (SubscribeToTaskResponses_ret svc)
            (SubscribeToTaskResponses (newTaskRespondedChan a));
      mret (Continue {| subTaskCreated := subTaskCreated subs;
                        subTaskResponded := sub |})
  | newTaskRespondedChan_recv taskRespondedLog =>
      perform (LogInfo "Received task response successfully!; taskRespondedLog: %#v");;
      mret (Continue subs)
  | ResponseChannel_recv blsAggServiceResp =>
      perform (LogInfo "Received response from blsAggregationService");;
      sendAggregatedResponseToContract blsAggServiceResp;;
      mret (Continue subs)
  end.

(** How a run of the loop over a finite schedule ends: [Start] has
    returned, or the schedule is used up and the loop waits in [select]. *)
Inductive Exit :=
| Returned (err : error)
| Selecting (subs : Subs).

(** The [for { select { ... } }] loop, driven by the sequence of cases
    that [select] takes. *)
Fixpoint Start_loop (sched : list Event) (subs : Subs) : M Exit :=
  match sched with
  | [] => mret (Selecting subs)
  | ev :: sched' =>
      flow ← Start_select ev subs;
      match flow with
      | Continue subs' => Start_loop sched' subs'
      | Return err => mret (Returned err)
      end
  end.

Definition Start (sched : list Event) : M Exit :=
  perform (LogInfo "Starting aggregator");;
  perform (LogInfo "Starting aggregator rpc server.");;
  perform GoStartServer;;
  a ← get_agg;
  subTaskCreated ← call (SubscribeToNewTasks_ret svc)
                     (SubscribeToNewTasks (newTaskCreatedChan a));
  a ← get_agg;
  subTaskResponded ← call (SubscribeToTaskResponses_ret svc)
                       (SubscribeToTaskResponses (newTaskRespondedChan a));
  Start_loop sched {| subTaskCreated := subTaskCreated;
                      subTaskResponded := subTaskResponded |}.

End Methods.

(** ** A concrete setting for examples *)

(** Points and quorum types are numbers; every conversion keeps the
    value it is given. *)
Definition sample_Imports : Imports :=
  {| bls_G1Point := Z;
     bls_G2Point := Z;
     BN254G1Point := Z;
     BN254G2Point := Z;
     ConvertToBN254G1Point := fun p => p;
     ConvertToBN254G2Point := fun p => p;
     sdk_QuorumNum := Z;
     sdk_QuorumThresholdPercentage := Z;
     to_QuorumNum := fun b => b;
     to_QuorumThresholdPercentage := fun p => p;
     zero_QuorumThresholdPercentage := 0%Z |}.

(** Collaborators that hand out the length of the history as a fresh
    subscription handle, and answer the two fallible calls with the given
    errors. *)
Definition sample_Services (initErr sendErr : error)
    : @Services sample_Imports :=
  {| SubscribeToNewTasks_ret := fun h => Z.of_nat (length h);
     SubscribeToTaskResponses_ret := fun h => Z.of_nat (length h);
     InitializeNewTask_ret := fun _ => initErr;
     SendAggregatedResponse_ret := fun _ => sendErr |}.

Definition sample_task (n : Z) : Task :=
  {| cstaskmanager.NumberToBeSquared := Some n;
     cstaskmanager.TaskCreatedBlock := 1000%Z;
     cstaskmanager.QuorumNumbers := [0%Z; 1%Z];
     cstaskmanager.QuorumThresholdPercentage := 67%Z |}.

Definition sample_log (i n : Z) : NewTaskCreated :=
  {| cstaskmanager.TaskIndex := i; cstaskmanager.Task := sample_task n |}.

Definition sample_resp (e : error) (i d : Z)
    : @blsagg.BlsAggregationServiceResponse sample_Imports :=
  @blsagg.Build_BlsAggregationServiceResponse sample_Imports
    e i d [11%Z] [21%Z; 22%Z] 31%Z
    (@bls.Build_Signature sample_Imports 41%Z)
    [1%Z] [2%Z] [3%Z] [[4%Z]].

Definition sample_state : @State sample_Imports :=
  {| agg := @NewAggregator sample_Imports ":8090" 1%Z 2%Z; trace := [] |}.

(** The state in which task 5 has been registered by a first event. *)
Definition sample_state_5 : @State sample_Imports :=
  match processTaskCreatedLog (sample_Services None None) (sample_log 5 3)
          sample_state with
  | Done _ s => s
  | Panic _ s => s
  end.

Definition sample_subs : Subs :=
  {| subTaskCreated := 4%Z; subTaskResponded := 5%Z |}.

(** The state in which [Start], called on the fresh aggregator, has
    handled the task-created event of task 5 and waits in [select]. *)
Definition sample_started_5 : @State sample_Imports :=
  match Start (sample_Services None None)
          [newTaskCreatedChan_recv (sample_log 5 3)] sample_state with
  | Done _ s => s
  | Panic _ s => s
  end.

(** ** Reading a trace *)

(** The error log that follows a fallible call: present when the call
    returned a non-nil error. *)
Definition logged_if_error `{Imports} (msg : string) (err : error)
    : list Call :=
  match err with Some _ => [LogError msg err] | None => [] end.

Definition is_SendAggregatedResponse `{Imports} (c : Call) : bool :=
  match c with SendAggregatedResponse _ _ _ => true | _ => false end.

Definition is_LogError `{Imports} (c : Call) : bool :=
  match c with LogError _ _ => true | _ => false end.

(** How many calls of a trace satisfy [p]. *)
Definition count_calls `{Imports} (p : Call -> bool) (tr : list Call) : nat :=
  length (List.filter p tr).

(** An aggregation result that carries an error. *)
Definition carries_error `{Imports} (ev : Event) : bool :=
  match ev with
  | ResponseChannel_recv r =>
      match blsagg.Err r with Some _ => true | None => false end
  | _ => false
  end.

(** ** Reading a run *)

(** The state a computation ends in, whether it completes or panics. *)
Definition final_state `{Imports} {A : Type} (o : Outcome A) : State :=
  match o with Done _ s => s | Panic _ s => s end.

(** The task-created events of a schedule, in order. *)
Fixpoint created_logs `{Imports} (sched : list Event) : list NewTaskCreated :=
  match sched with
  | [] => []
  | newTaskCreatedChan_recv taskLog :: sched' => taskLog :: created_logs sched'
  | _ :: sched' => created_logs sched'
  end.

(** The task that the last of [logs] with index [k] carries, if any. *)
Fixpoint last_created (k : types.TaskIndex) (logs : list NewTaskCreated)
    : option Task :=
  match logs with
  | [] => None
  | taskLog :: logs' =>
      match last_created k logs' with
      | Some t => Some t
      | None => if decide (cstaskmanager.TaskIndex taskLog = k)
                then Some (cstaskmanager.Task taskLog) else None
      end
  end.

Definition is_InitializeNewTask `{Imports} (c : Call) : bool :=
  match c with InitializeNewTask _ _ _ _ _ => true | _ => false end.

Definition is_Subscribe `{Imports} (c : Call) : bool :=
  match c with
  | SubscribeToNewTasks _ | SubscribeToTaskResponses _ => true
  | _ => false
  end.

Definition is_Unsubscribe `{Imports} (c : Call) : bool :=
  match c with Unsubscribe _ => true | _ => false end.

Definition is_created `{Imports} (ev : Event) : bool :=
  match ev with newTaskCreatedChan_recv _ => true | _ => false end.

(** An aggregation result without error. *)
Definition delivers_result `{Imports} (ev : Event) : bool :=
  match ev with
  | ResponseChannel_recv r =>
      match blsagg.Err r with Some _ => false | None => true end
  | _ => false
  end.

(** A task-created event for index [k]. *)
Definition creates `{Imports} (k : types.TaskIndex) (ev : Event) : bool :=
  match ev with
  | newTaskCreatedChan_recv taskLog =>
      bool_decide (cstaskmanager.TaskIndex taskLog = k)
  | _ => false
  end.

(** The events on which the loop ends: cancellation, by return, and a
    failed aggregation result, by panic. *)
Definition ends_loop `{Imports} (ev : Event) : bool :=
  match ev with
  | ctx_Done => true
  | _ => carries_error ev
  end.

(** How many events of a schedule satisfy [p]. *)
Definition count_events `{Imports} (p : Event -> bool) (sched : list Event)
    : nat :=
  length (List.filter p sched).

(** ** [NewAggregator], with the ways it fails *)

Module constructor.
Section defs.
Context `{Imports}.

(** The fields of [config.Config] that [NewAggregator] reads. An address
    is kept as the text its [String] method gives, the private key as a
    number. *)
Record Config := {
  EthHttpRpcUrl : string;
  EthWsRpcUrl : string;
  IncredibleSquaringRegistryCoordinatorAddr : string;
  OperatorStateRetrieverAddr : string;
  EcdsaPrivateKey : Z;
  AggregatorServerIpPortAddr : string
}.

Record BuildAllConfig := {
  EthHttpUrl : string;
  EthWsUrl : string;
  RegistryCoordinatorAddr : string;
  OperatorStateRetrieverAddr' : string;
  AvsName : string;
  PromMetricsIpPortAddress : string
}.

(** The calls [NewAggregator] makes. The first four can fail. *)
Inductive BuildCall :=
| BuildAvsReaderFromConfig (c : Config)
| BuildAvsWriterFromConfig (c : Config)
| BuildAvsSubscriberFromConfig (c : Config)
| BuildAll (chainioConfig : BuildAllConfig) (ecdsaPrivateKey : Z)
| NewOperatorsInfoServiceInMemory
| NewAvsRegistryServiceChainCaller
| NewBlsAggregatorService
| Logger_Error (msg : string) (err : error)
| Logger_Errorf (msg : string) (err : error).

(** The errors the four fallible builders return. *)
Record Built := {
  avsReader_err : error;
  avsWriter_err : error;
  avsSubscriber_err : error;
  clients_err : error
}.

Definition chainioConfig_of (c : Config) : BuildAllConfig :=
  {| EthHttpUrl := EthHttpRpcUrl c;
     EthWsUrl := EthWsRpcUrl c;
     RegistryCoordinatorAddr := IncredibleSquaringRegistryCoordinatorAddr c;
     OperatorStateRetrieverAddr' := OperatorStateRetrieverAddr c;
     AvsName := avsName;
     PromMetricsIpPortAddress := ":9090" |}.

Abbreviation Aggregator_literal := NewAggregator (only parsing).

(** [NewAggregator]: the calls made, and the pair it returns, where
    [None] for the aggregator is the nil pointer. The two channels that
    the struct literal makes are passed in. *)
Definition NewAggregator (c : Config) (b : Built) (chCreated chResponded : Chan)
    : list BuildCall * (option Aggregator * error) :=
  match avsReader_err b with
  | Some _ =>
      ([BuildAvsReaderFromConfig c;
        Logger_Error "Cannot create avsReader" (avsReader_err b)],
       (None, avsReader_err b))
  | None =>
  match avsWriter_err b with
  | Some _ =>
      ([BuildAvsReaderFromConfig c; BuildAvsWriterFromConfig c;
        Logger_Errorf "Cannot create avsWriter" (avsWriter_err b)],
       (None, avsWriter_err b))
  | None =>
  match avsSubscriber_err b with
  | Some _ =>
      ([BuildAvsReaderFromConfig c; BuildAvsWriterFromConfig c;
        BuildAvsSubscriberFromConfig c;
        Logger_Errorf "Cannot create avsSubscriber" (avsSubscriber_err b)],
       (None, avsSubscriber_err b))
  | None =>
  match clients_err b with
  | Some _ =>
      ([BuildAvsReaderFromConfig c; BuildAvsWriterFromConfig c;
        BuildAvsSubscriberFromConfig c;
        BuildAll (chainioConfig_of c) (EcdsaPrivateKey c);
        Logger_Errorf "Cannot create sdk clients" (clients_err b)],
       (None, clients_err b))
  | None =>
      ([BuildAvsReaderFromConfig c; BuildAvsWriterFromConfig c;
        BuildAvsSubscriberFromConfig c;
        BuildAll (chainioConfig_of c) (EcdsaPrivateKey c);
        NewOperatorsInfoServiceInMemory;
        NewAvsRegistryServiceChainCaller;
        NewBlsAggregatorService],
       (Some (Aggregator_literal (AggregatorServerIpPortAddr c)
                chCreated chResponded),
        None))
  end end end end.

(** The four fallible calls, in the order of the source. *)
Definition builds (c : Config) : list BuildCall :=
  [BuildAvsReaderFromConfig c; BuildAvsWriterFromConfig c;
   BuildAvsSubscriberFromConfig c;
   BuildAll (chainioConfig_of c) (EcdsaPrivateKey c)].

Definition build_errors (b : Built) : list error :=
  [avsReader_err b; avsWriter_err b; avsSubscriber_err b; clients_err b].

(** The log call that reports a failure of the [i]-th builder. *)
Definition failure_log (i : nat) (err : error) : BuildCall :=
  match i with
  | 0 => Logger_Error "Cannot create avsReader" err
  | 1 => Logger_Errorf "Cannot create avsWriter" err
  | 2 => Logger_Errorf "Cannot create avsSubscriber" err
  | _ => Logger_Errorf "Cannot create sdk clients" err
  end.

End defs.
End constructor.

(** ** The node: [node/pkg/p2p.go] *)

Module p2p.

Definition success : Z := 0.
Definition failure : Z := 1.

Inductive NodeRole := HeadNode | WorkerNode.

Section defs.
(** A multiaddress, with [multiaddr.NewMultiaddr], which returns a value
    and an error; the label of the head role; a dial-back peer. *)
Variable Multiaddr : Type.
Variable NewMultiaddr : string -> Multiaddr * error.
Variable HeadNodeLabel : string.
Variable Peer : Type.

(** An error inside [RunP2P]: one that a collaborator returned, or the
    one [getBootNodeAddresses] builds with
    [fmt.Errorf(format, addr, err)], of which the format, the value given
    for [%s] and the error wrapped by [%w] are kept. *)
Inductive Error :=
| returned (err : string)
| Errorf (format : string) (addr : Multiaddr) (err : string).

(** The loop of [getBootNodeAddresses] from the slice [out] built so far.
    In the body, [addr, err := multiaddr.NewMultiaddr(addr)] declares a new
    [addr]: the value given to [fmt.Errorf] is the one [NewMultiaddr]
    returned, not the string of the loop. On an error the slice returned
    is nil. *)
Fixpoint getBootNodeAddresses_from (out : list Multiaddr) (addrs : list string)
    : list Multiaddr * option Error :=
  match addrs with
  | [] => (out, None)
  | addr :: addrs' =>
      let '(addr', err) := NewMultiaddr addr in
      match err with
      | Some e =>
          ([], Some (Errorf "could not parse multiaddress (addr: %s): %w"
                            addr' e))
      | None => getBootNodeAddresses_from (out ++ [addr']) addrs'
      end
  end.

Definition getBootNodeAddresses (addrs : list string)
    : list Multiaddr * option Error :=
  getBootNodeAddresses_from [] addrs.

Record Connectivity := {
  Address : string;
  Port : Z;
  PrivateKey : string;
  DialbackAddress : string;
  DialbackPort : Z;
  WebsocketDialbackPort : Z;
  Websocket : bool;
  WebsocketPort : Z
}.

(** The fields of [config.Config] that [RunP2P] reads. *)
Record Config := {
  Role : string;
  Workspace : string;
  BootNodes : list string;
  Concurrency : Z;
  LoadAttributes : bool;
  Connectivity_ : Connectivity
}.

(** What the collaborators of [RunP2P] return. *)
Record World := {
  filepath_Abs : string -> string * error;
  Peers_ret : list Peer * error;
  host_New_ret : error;
  node_New_ret : error;
  node_Run_ret : error
}.

Inductive Call :=
| LogError (msg : string) (err : option Error)
| LogInfo (msg : string)
| store_New_pdb
| store_New_fdb
| peerstore_New
| peerstore_Peers
| host_New (address : string) (port : Z) (privateKey : string)
    (bootNodes : list Multiaddr) (dialBackPeers : list Peer)
    (dialBackAddress : string) (dialBackPort dialBackWebsocketPort : Z)
    (websocket : bool) (websocketPort : Z)
| host_Close
| fstore_New (workspace : string)
| node_New (role : NodeRole) (concurrency : Z) (attributeLoading : bool)
| go_node_main (role : NodeRole)
| node_Run
| close_failed
| close_done.

Definition role_of (cfg : Config) : NodeRole :=
  if String.eqb (Role cfg) HeadNodeLabel then HeadNode else WorkerNode.

Definition lift (err : error) : option Error :=
  match err with Some e => Some (returned e) | None => None end.

(** [RunP2P]: the calls made, in order, and the code returned. The
    deferred [host.Close] runs when the function returns, on every path
    that has created the host. *)
Definition RunP2P (w : World) (cfg : Config) : list Call * Z :=
  let role := role_of cfg in
  let '(workspace, err) := filepath_Abs w (Workspace cfg) in
  match err with
  | Some _ =>
      ([LogError "could not determine absolute path for workspace" (lift err)],
       failure)
  | None =>
  let '(peers, err) := Peers_ret w in
  match err with
  | Some _ =>
      ([store_New_pdb; peerstore_New; peerstore_Peers;
        LogError "could not get list of dial-back peers" (lift err)],
       failure)
  | None =>
  let '(bootNodeAddrs, err) := getBootNodeAddresses (BootNodes cfg) in
  match err with
  | Some _ =>
      ([store_New_pdb; peerstore_New; peerstore_Peers;
        LogError "could not get boot node addresses" err],
       failure)
  | None =>
  let c := Connectivity_ cfg in
  let before_host :=
    [store_New_pdb; peerstore_New; peerstore_Peers;
     LogInfo "Creating host";
     host_New (Address c) (Port c) (PrivateKey c) bootNodeAddrs peers
       (DialbackAddress c) (DialbackPort c) (WebsocketDialbackPort c)
       (Websocket c) (WebsocketPort c)] in
  match host_New_ret w with
  | Some _ =>
      (before_host ++ [LogError "could not create host" (lift (host_New_ret w))],
       failure)
  | None =>
  let before_node :=
    before_host ++
    [LogInfo "created host"; store_New_fdb; fstore_New workspace;
     node_New role (Concurrency cfg) (LoadAttributes cfg)] in
  match node_New_ret w with
  | Some _ =>
      (before_node ++
       [LogError "could not create node" (lift (node_New_ret w)); host_Close],
       failure)
  | None =>
      (before_node ++ [go_node_main role; host_Close], success)
  end end end end end.

(** The goroutine that [RunP2P] starts. *)
Definition node_main (w : World) : list Call :=
  [LogInfo "Blockless Node starting"; node_Run] ++
  match node_Run_ret w with
  | Some _ =>
      [LogError "Blockless Node failed" (lift (node_Run_ret w)); close_failed]
  | None => [close_done]
  end ++
  [LogInfo "Blockless Node stopped"].

Definition is_LogError (c : Call) : bool :=
  match c with LogError _ _ => true | _ => false end.

Definition is_go (c : Call) : bool :=
  match c with go_node_main _ => true | _ => false end.

Definition is_host_Close (c : Call) : bool :=
  match c with host_Close => true | _ => false end.

Definition is_close (c : Call) : bool :=
  match c with close_failed | close_done => true | _ => false end.

Definition count (p : Call -> bool) (tr : list Call) : nat :=
  length (List.filter p tr).

(** Whether [NewMultiaddr] accepts an address. *)
Definition parses (addr : string) : bool :=
  match snd (NewMultiaddr addr) with Some _ => false | None => true end.

End defs.

Arguments returned {Multiaddr} err.
Arguments Errorf {Multiaddr} format addr err.
Arguments getBootNodeAddresses_from {Multiaddr} NewMultiaddr out addrs.
Arguments getBootNodeAddresses {Multiaddr} NewMultiaddr addrs.
Arguments parses {Multiaddr} NewMultiaddr addr.
Arguments lift {Multiaddr} err.
Arguments LogError {Multiaddr Peer} msg err.
Arguments LogInfo {Multiaddr Peer} msg.
Arguments store_New_pdb {Multiaddr Peer}.
Arguments store_New_fdb {Multiaddr Peer}.
Arguments peerstore_New {Multiaddr Peer}.
Arguments peerstore_Peers {Multiaddr Peer}.
Arguments host_New {Multiaddr Peer}.
Arguments host_Close {Multiaddr Peer}.
Arguments fstore_New {Multiaddr Peer} workspace.
Arguments node_New {Multiaddr Peer} role concurrency attributeLoading.
Arguments go_node_main {Multiaddr Peer} role.
Arguments node_Run {Multiaddr Peer}.
Arguments close_failed {Multiaddr Peer}.
Arguments close_done {Multiaddr Peer}.
Arguments RunP2P {Multiaddr} NewMultiaddr HeadNodeLabel {Peer} w cfg.
Arguments node_main {Multiaddr Peer} w.
Arguments is_LogError {Multiaddr Peer} c.
Arguments is_go {Multiaddr Peer} c.
Arguments is_host_Close {Multiaddr Peer} c.
Arguments is_close {Multiaddr Peer} c.
Arguments count {Multiaddr Peer} p tr.
Arguments filepath_Abs {Peer} w.
Arguments Peers_ret {Peer} w.
Arguments host_New_ret {Peer} w.
Arguments node_New_ret {Peer} w.
Arguments node_Run_ret {Peer} w.
End p2p.

(** ** The API server: middleware and start-up helpers *)

Module server.

(** [http.StatusOK]. *)
Definition StatusOK : Z := 200.

(** A call on an [http.ResponseWriter]. *)
Inductive WriterCall :=
| Header
| Write (body : string)
| WriteHeader (status : Z).

(** [wrappedWriter]: the status field. The embedded writer is the list of
    calls that reach it. *)
Record wrappedWriter := { status : Z; forwarded : list WriterCall }.

(** One call of a handler on the wrapped writer. [WriteHeader] is the
    method of [wrappedWriter]; [Header] and [Write] are the promoted
    methods of the embedded writer. *)
Definition wrapped_call (w : wrappedWriter) (c : WriterCall) : wrappedWriter :=
  match c with
  | WriteHeader st =>
      {| status := st; forwarded := forwarded w ++ [WriteHeader st] |}
  | _ => {| status := status w; forwarded := forwarded w ++ [c] |}
  end.

(** [next.ServeHTTP(wrapped, r)], for a handler that makes the calls
    [calls] on the writer it is given. *)
Definition ServeHTTP (calls : list WriterCall) (w : wrappedWriter)
    : wrappedWriter :=
  fold_left wrapped_call calls w.

Record LogEntry := {
  log_status : Z;
  log_method : string;
  log_path : string;
  log_duration : Duration
}.

(** The handler that the logging middleware returns, run on one request:
    what reaches the writer [w], and the entry logged. [start] and
    [finish] are the two readings of the clock. *)
Definition logging (next : list WriterCall) (method path : string)
    (start finish : Z) : list WriterCall * LogEntry :=
  let wrapped := {| status := StatusOK; forwarded := [] |} in
  let wrapped := ServeHTTP next wrapped in
  (forwarded wrapped,
   {| log_status := status wrapped;
      log_method := method;
      log_path := path;
      log_duration := (finish - start)%Z |}).

(** The status of the last [WriteHeader] among [calls], if any. *)
Fixpoint last_status (calls : list WriterCall) : option Z :=
  match calls with
  | [] => None
  | c :: calls' =>
      match last_status calls' with
      | Some st => Some st
      | None => match c with WriteHeader st => Some st | _ => None end
      end
  end.

(** What [waitForServer] does. *)
Inductive WaitCall :=
| http_Get (url : string)
| Body_Close
| Logger_Info (msg : string)
| Sleep (d : Duration).

(** How a run of [waitForServer] over finitely many answers ends: it has
    returned, it goes on polling, or it has dereferenced a nil response
    that came without an error. *)
Inductive WaitExit := Returned | Polling | NilResponse.

(** [waitForServer], driven by what each [http.Get] returns: a response,
    given by its status code, or nil, and an error. *)
Fixpoint waitForServer (url : string) (answers : list (option Z * error))
    : list WaitCall * WaitExit :=
  match answers with
  | [] => ([], Polling)
  | (resp, err) :: answers' =>
      match err, resp with
      | None, None => ([http_Get url], NilResponse)
      | None, Some code =>
          if (code =? StatusOK)%Z
          then ([http_Get url; Body_Close;
                 Logger_Info "App is Running. CTRL+C to quit."], Returned)
          else
            let '(calls, exit) := waitForServer url answers' in
            (http_Get url :: Body_Close :: Sleep (1 * time.Second)%Z :: calls,
             exit)
      | Some _, Some _ =>
          let '(calls, exit) := waitForServer url answers' in
          (http_Get url :: Body_Close :: Sleep (1 * time.Second)%Z :: calls,
           exit)
      | Some _, None =>
          let '(calls, exit) := waitForServer url answers' in
          (http_Get url :: Sleep (1 * time.Second)%Z :: calls, exit)
      end
  end.

Definition is_Get (c : WaitCall) : bool :=
  match c with http_Get _ => true | _ => false end.

Definition is_Close (c : WaitCall) : bool :=
  match c with Body_Close => true | _ => false end.

Definition is_Sleep (c : WaitCall) : bool :=
  match c with Sleep _ => true | _ => false end.

Definition count (p : WaitCall -> bool) (tr : list WaitCall) : nat :=
  length (List.filter p tr).

(** An answer on which [waitForServer] returns. *)
Definition is_up (a : option Z * error) : bool :=
  match a with
  | (Some code, None) => (code =? StatusOK)%Z
  | _ => false
  end.

(** An answer that carries a response. *)
Definition has_response (a : option Z * error) : bool :=
  match fst a with Some _ => true | None => false end.

(** An answer without response and without error. *)
Definition is_nil_nil (a : option Z * error) : bool :=
  match a with (None, None) => true | _ => false end.

(** What [openbrowser] does: it starts a command, given by its name and
    arguments, or calls [Logger.Fatal]. *)
Inductive BrowserCall :=
| exec_Start (name : string) (args : list string)
| Logger_Fatal (msg : string) (err : error).

(** [openbrowser] on the platform [GOOS]; [start_err] is what [Start]
    returns for the command, if one is started. *)
Definition openbrowser (GOOS url : string) (start_err : error)
    : list BrowserCall :=
  let '(started, err) :=
    if String.eqb GOOS "linux"
    then ([exec_Start "xdg-open" [url]], start_err)
    else if String.eqb GOOS "windows"
    then ([exec_Start "rundll32" ["url.dll,FileProtocolHandler"; url]],
          start_err)
    else if String.eqb GOOS "darwin"
    then ([exec_Start "open" [url]], start_err)
    else ([], Some "unsupported platform") in
  match err with
  | Some _ => started ++ [Logger_Fatal "Failed to open browser" err]
  | None => started
  end.

Definition is_exec (c : BrowserCall) : bool :=
  match c with exec_Start _ _ => true | _ => false end.

Definition is_Fatal (c : BrowserCall) : bool :=
  match c with Logger_Fatal _ _ => true | _ => false end.

Definition supported (GOOS : string) : bool :=
  String.eqb GOOS "linux" || String.eqb GOOS "windows"
  || String.eqb GOOS "darwin".

End server.

(** ** Concrete settings for the examples of the later parts *)

(** A schedule that registers task 5, loses and renews a subscription,
    registers task 6, registers task 5 again with another payload, sees a
    task-responded event and receives a result for task 5. *)
Definition sample_sched : list (@Event sample_Imports) :=
  [newTaskCreatedChan_recv (sample_log 5 3);
   subTaskCreated_Err (Some "websocket: close 1006");
   newTaskCreatedChan_recv (sample_log 6 9);
   newTaskCreatedChan_recv (sample_log 5 4);
   newTaskRespondedChan_recv
     {| cstaskmanager.TaskResponse := cstaskmanager.zero_TaskResponse |};
   ResponseChannel_recv (sample_resp None 5 171)].

(** The same with task 7 in place of the second event for task 5. *)
Definition sample_sched_distinct : list (@Event sample_Imports) :=
  [newTaskCreatedChan_recv (sample_log 5 3);
   subTaskCreated_Err (Some "websocket: close 1006");
   newTaskCreatedChan_recv (sample_log 6 9);
   newTaskCreatedChan_recv (sample_log 7 4)].

Definition sample_run (sched : list (@Event sample_Imports))
    : Outcome Exit :=
  Start_loop (sample_Services (Some "task already initialized")
                              (Some "execution reverted"))
    sched sample_subs sample_state.

(** The subscriptions held when a run waits in [select]. *)
Definition waiting_subs `{Imports} (o : Outcome Exit) : Subs :=
  match o with
  | Done (Selecting subs) _ => subs
  | _ => {| subTaskCreated := 0%Z; subTaskResponded := 0%Z |}
  end.

Definition sample_Config : constructor.Config :=
  {| constructor.EthHttpRpcUrl := "http://localhost:8545";
     constructor.EthWsRpcUrl := "ws://localhost:8545";
     constructor.IncredibleSquaringRegistryCoordinatorAddr := "0xa1";
     constructor.OperatorStateRetrieverAddr := "0xb2";
     constructor.EcdsaPrivateKey := 7%Z;
     constructor.AggregatorServerIpPortAddr := ":8090" |}.

(** The reader and the writer are built, the subscriber is not. *)
Definition sample_Built : constructor.Built :=
  {| constructor.avsReader_err := None;
     constructor.avsWriter_err := None;
     constructor.avsSubscriber_err := Some "dial tcp: connection refused";
     constructor.clients_err := None |}.

(** A parser that accepts the texts that start with a slash and gives
    their length as the address; on any other text it returns the address
    0 and an error. *)
Definition sample_NewMultiaddr (addr : string) : Z * error :=
  if String.prefix "/" addr
  then (Z.of_nat (String.length addr), None)
  else (0%Z, Some "must begin with /").

Definition sample_World (host_err node_err : error) : p2p.World Z :=
  {| p2p.filepath_Abs := fun path => (String.append "/home/node/" path, None);
     p2p.Peers_ret := ([21%Z; 22%Z], None);
     p2p.host_New_ret := host_err;
     p2p.node_New_ret := node_err;
     p2p.node_Run_ret := None |}.

Definition sample_p2p_Config (bootNodes : list string) : p2p.Config :=
  {| p2p.Role := "head";
     p2p.Workspace := "workspace";
     p2p.BootNodes := bootNodes;
     p2p.Concurrency := 10%Z;
     p2p.LoadAttributes := false;
     p2p.Connectivity_ :=
       {| p2p.Address := "0.0.0.0";
          p2p.Port := 9527%Z;
          p2p.PrivateKey := "priv.bin";
          p2p.DialbackAddress := "";
          p2p.DialbackPort := 0%Z;
          p2p.WebsocketDialbackPort := 0%Z;
          p2p.Websocket := false;
          p2p.WebsocketPort := 0%Z |} |}.

(** * Properties *)

Ltac run_M :=
  cbv [mbind M_bind mret M_ret bind ret panic call perform get_agg put_agg
       store_task load_task load_taskResponse]; cbn [agg trace].

Section Loops.
Context `{Imports}.

Lemma append_loop_map {A B} (f : A -> B) (l : list A) (acc : list B) :
  fold_left (fun out x => out ++ [f x]) l acc = acc ++ map f l.
Proof.
  revert acc. induction l as [|x l IH]; intros acc; cbn.
  - by rewrite app_nil_r.
  - rewrite IH. by rewrite <- app_assoc.
Qed.

Lemma quorumNums_of_map (t : Task) :
  quorumNums_of t = map to_QuorumNum (cstaskmanager.QuorumNumbers t).
Proof. unfold quorumNums_of. by rewrite append_loop_map. Qed.

Lemma convert_points_map (ps : list bls_G1Point) :
  convert_points ps = map ConvertToBN254G1Point ps.
Proof. unfold convert_points. by rewrite append_loop_map. Qed.

(** Assigning [v] at the indices [k, k+1, ..., k+m-1] of a slice whose
    first [k] entries are [v] already and whose other [m] are [z]. *)
Lemma assign_loop_replicate {A} (v z : A) (m k : nat) :
  fold_left (fun l i => <[i := v]> l) (seq k m)
            (replicate k v ++ replicate m z)
  = replicate (k + m) v.
Proof.
  revert k. induction m as [|m IH]; intros k; cbn [seq fold_left].
  - cbn. rewrite app_nil_r. f_equal. lia.
  - replace (<[k := v]> (replicate k v ++ replicate (S m) z))
      with (replicate (S k) v ++ replicate m z).
    + rewrite IH. f_equal. lia.
    + rewrite insert_app_r_alt by (rewrite length_replicate; lia).
      rewrite length_replicate, Nat.sub_diag.
      rewrite (replicate_S_end k v), <- app_assoc. reflexivity.
Qed.

Lemma quorumThresholdPercentages_of_replicate (t : Task) :
  quorumThresholdPercentages_of t
  = replicate (length (cstaskmanager.QuorumNumbers t))
      (to_QuorumThresholdPercentage (cstaskmanager.QuorumThresholdPercentage t)).
Proof.
  unfold quorumThresholdPercentages_of.
  exact (assign_loop_replicate _ _ _ 0).
Qed.

Lemma taskTimeToExpiry_value :
  (taskChallengeWindowBlock * blockTimeSeconds)%Z = (1200 * time.Second)%Z.
Proof. reflexivity. Qed.

End Loops.

Section Runs.
Context `{Imports} (svc : Services).

(** *** What each method does, as one equation *)

Lemma processTaskCreatedLog_run (taskLog : NewTaskCreated) (s : State) :
  processTaskCreatedLog svc taskLog s =
  let h := trace s ++
    [InitializeNewTask
       (cstaskmanager.TaskIndex taskLog)
       (cstaskmanager.TaskCreatedBlock (cstaskmanager.Task taskLog))
       (quorumNums_of (cstaskmanager.Task taskLog))
       (quorumThresholdPercentages_of (cstaskmanager.Task taskLog))
       (taskChallengeWindowBlock * blockTimeSeconds)%Z] in
  Done (InitializeNewTask_ret svc h)
       {| agg := with_task (agg s) (cstaskmanager.TaskIndex taskLog)
                   (cstaskmanager.Task taskLog);
          trace := h |}.
Proof.
  unfold processTaskCreatedLog. run_M.
  by destruct (InitializeNewTask_ret svc _).
Qed.

Lemma Start_select_created_run (taskLog : NewTaskCreated) (subs : Subs)
    (s : State) :
  Start_select svc (newTaskCreatedChan_recv taskLog) subs s =
  let h := trace s ++
    [LogInfo "Received new task";
     InitializeNewTask
       (cstaskmanager.TaskIndex taskLog)
       (cstaskmanager.TaskCreatedBlock (cstaskmanager.Task taskLog))
       (quorumNums_of (cstaskmanager.Task taskLog))
       (quorumThresholdPercentages_of (cstaskmanager.Task taskLog))
       (taskChallengeWindowBlock * blockTimeSeconds)%Z] in
  Done (Continue subs)
       {| agg := with_task (agg s) (cstaskmanager.TaskIndex taskLog)
                   (cstaskmanager.Task taskLog);
          trace := h ++ logged_if_error "Failed to process new task"
                          (InitializeNewTask_ret svc h) |}.
Proof.
  cbn [Start_select]. run_M.
  rewrite processTaskCreatedLog_run. cbn zeta. cbn [agg trace].
  rewrite <- app_assoc. cbn [app].
  destruct (InitializeNewTask_ret svc _); cbn [logged_if_error].
  - run_M. reflexivity.
  - run_M. by rewrite app_nil_r.
Qed.

Lemma sendAggregatedResponseToContract_err_run
    (blsAggServiceResp : blsagg.BlsAggregationServiceResponse) (s : State)
    (e : string) :
  blsagg.Err blsAggServiceResp = Some e ->
  sendAggregatedResponseToContract svc blsAggServiceResp s =
  Panic (Some e)
        {| agg := agg s;
           trace := trace s ++
             [LogError "BlsAggregationServiceResponse contains an error"
                       (Some e)] |}.
Proof.
  intros He. unfold sendAggregatedResponseToContract. rewrite He.
  run_M. reflexivity.
Qed.

Lemma sendAggregatedResponseToContract_ok_run
    (blsAggServiceResp : blsagg.BlsAggregationServiceResponse) (s : State) :
  blsagg.Err blsAggServiceResp = None ->
  sendAggregatedResponseToContract svc blsAggServiceResp s =
  let h := trace s ++
    [LogInfo "Threshold reached. Sending aggregated response onchain.";
     SendAggregatedResponse
       (default cstaskmanager.zero_Task
          (tasks (agg s) !! blsagg.TaskIndex blsAggServiceResp))
       (default cstaskmanager.zero_TaskResponse
          (default ∅ (taskResponses (agg s)
                        !! blsagg.TaskIndex blsAggServiceResp)
             !! blsagg.TaskResponseDigest blsAggServiceResp))
       (nonSignerStakesAndSignature_of blsAggServiceResp)] in
  Done tt
       {| agg := agg s;
          trace := h ++ logged_if_error "Aggregator failed to respond to task"
                          (SendAggregatedResponse_ret svc h) |}.
Proof.
  intros He. unfold sendAggregatedResponseToContract. rewrite He.
  run_M. rewrite <- app_assoc. cbn [app].
  destruct (SendAggregatedResponse_ret svc _); cbn [logged_if_error].
  - run_M. reflexivity.
  - run_M. by rewrite app_nil_r.
Qed.

Lemma Start_select_done_run (subs : Subs) (s : State) :
  Start_select svc ctx_Done subs s = Done (Return None) s.
Proof. reflexivity. Qed.

Lemma Start_select_subTaskCreated_Err_run (err : error) (subs : Subs)
    (s : State) :
  Start_select svc (subTaskCreated_Err err) subs s =
  let h := trace s ++
    [LogError "Error in websocket subscription for NewTaskCreated" err;
     Unsubscribe (subTaskCreated subs);
     SubscribeToNewTasks (newTaskCreatedChan (agg s))] in
  Done (Continue {| subTaskCreated := SubscribeToNewTasks_ret svc h;
                    subTaskResponded := subTaskResponded subs |})
       {| agg := agg s; trace := h |}.
Proof.
  cbn [Start_select]. run_M. rewrite <- !app_assoc. reflexivity.
Qed.

Lemma Start_select_subTaskResponded_Err_run (err : error) (subs : Subs)
    (s : State) :
  Start_select svc (subTaskResponded_Err err) subs s =
  let h := trace s ++
    [LogError "Error in websocket subscription for TaskResponded" err;
     Unsubscribe (subTaskResponded subs);
     SubscribeToTaskResponses (newTaskRespondedChan (agg s))] in
  Done (Continue {| subTaskCreated := subTaskCreated subs;
                    subTaskResponded := SubscribeToTaskResponses_ret svc h |})
       {| agg := agg s; trace := h |}.
Proof.
  cbn [Start_select]. run_M. rewrite <- !app_assoc. reflexivity.
Qed.

Lemma Start_select_responded_run (taskRespondedLog : TaskResponded)
    (subs : Subs) (s : State) :
  Start_select svc (newTaskRespondedChan_recv taskRespondedLog) subs s =
  Done (Continue subs)
       {| agg := agg s;
          trace := trace s ++
            [LogInfo "Received task response successfully!; taskRespondedLog: %#v"] |}.
Proof. reflexivity. Qed.

Lemma Start_select_response_err_run
    (blsAggServiceResp : blsagg.BlsAggregationServiceResponse) (subs : Subs)
    (s : State) (e : string) :
  blsagg.Err blsAggServiceResp = Some e ->
  Start_select svc (ResponseChannel_recv blsAggServiceResp) subs s =
  Panic (Some e)
        {| agg := agg s;
           trace := trace s ++
             [LogInfo "Received response from blsAggregationService";
              LogError "BlsAggregationServiceResponse contains an error"
                       (Some e)] |}.
Proof.
  intros He. cbn [Start_select]. run_M.
  rewrite (sendAggregatedResponseToContract_err_run _ _ e He).
  cbn [agg trace]. by rewrite <- app_assoc.
Qed.

Lemma Start_select_response_ok_run
    (blsAggServiceResp : blsagg.BlsAggregationServiceResponse) (subs : Subs)
    (s : State) :
  blsagg.Err blsAggServiceResp = None ->
  Start_select svc (ResponseChannel_recv blsAggServiceResp) subs s =
  let h := trace s ++
    [LogInfo "Received response from blsAggregationService";
     LogInfo "Threshold reached. Sending aggregated response onchain.";
     SendAggregatedResponse
       (default cstaskmanager.zero_Task
          (tasks (agg s) !! blsagg.TaskIndex blsAggServiceResp))
       (default cstaskmanager.zero_TaskResponse
          (default ∅ (taskResponses (agg s)
                        !! blsagg.TaskIndex blsAggServiceResp)
             !! blsagg.TaskResponseDigest blsAggServiceResp))
       (nonSignerStakesAndSignature_of blsAggServiceResp)] in
  Done (Continue subs)
       {| agg := agg s;
          trace := h ++ logged_if_error "Aggregator failed to respond to task"
                          (SendAggregatedResponse_ret svc h) |}.
Proof.
  intros He. cbn [Start_select]. run_M.
  rewrite (sendAggregatedResponseToContract_ok_run _ _ He).
  cbn zeta. cbn [agg trace].
  by rewrite <- (app_assoc (trace s) [LogInfo _]).
Qed.

(** One iteration of the loop, then the rest of the schedule. *)
Lemma Start_loop_cons (ev : Event) (sched : list Event) (subs : Subs)
    (s : State) :
  Start_loop svc (ev :: sched) subs s =
  match Start_select svc ev subs s with
  | Done (Continue subs') s' => Start_loop svc sched subs' s'
  | Done (Return err) s' => Done (Returned err) s'
  | Panic v s' => Panic v s'
  end.
Proof.
  cbn [Start_loop]. cbv [mbind M_bind bind mret M_ret ret].
  destruct (Start_select svc ev subs s) as [[subs'|err] s'|v s']; reflexivity.
Qed.

(** An iteration never returns an error, and returns only on [ctx_Done]. *)
Lemma Start_select_Return (ev : Event) (subs : Subs) (s s' : State)
    (err : error) :
  Start_select svc ev subs s = Done (Return err) s' ->
  ev = ctx_Done /\ err = None /\ s' = s.
Proof.
  destruct ev as [|e|l|e|l|r].
  - rewrite Start_select_done_run. intros [= ? ?]. by subst.
  - rewrite Start_select_subTaskCreated_Err_run. discriminate.
  - rewrite Start_select_created_run. discriminate.
  - rewrite Start_select_subTaskResponded_Err_run. discriminate.
  - rewrite Start_select_responded_run. discriminate.
  - destruct (blsagg.Err r) as [e|] eqn:He.
    + rewrite (Start_select_response_err_run _ _ _ e He). discriminate.
    + rewrite (Start_select_response_ok_run _ _ _ He). discriminate.
Qed.

(** An iteration panics only on an aggregation result with an error. *)
Lemma Start_select_Panic (ev : Event) (subs : Subs) (s s' : State)
    (v : error) :
  Start_select svc ev subs s = Panic v s' -> carries_error ev = true.
Proof.
  destruct ev as [|e|l|e|l|r].
  - rewrite Start_select_done_run. discriminate.
  - rewrite Start_select_subTaskCreated_Err_run. discriminate.
  - rewrite Start_select_created_run. discriminate.
  - rewrite Start_select_subTaskResponded_Err_run. discriminate.
  - rewrite Start_select_responded_run. discriminate.
  - cbn [carries_error]. destruct (blsagg.Err r) as [e|] eqn:He; [done|].
    rewrite (Start_select_response_ok_run _ _ _ He). discriminate.
Qed.

End Runs.

(** * The task registry *)

Section Registry.
Context `{Imports} (svc : Services).

(** C1, as the code has it: a task-created event whose index is already
    registered is processed like any other. The loop goes on to its next
    iteration, the task of the event replaces the one stored under that
    index, and every other index keeps its task. *)
Theorem duplicate_task_created_replaces_task (taskLog : NewTaskCreated)
    (subs : Subs) (s : State) :
  is_Some (tasks (agg s) !! cstaskmanager.TaskIndex taskLog) ->
  exists s',
    Start_select svc (newTaskCreatedChan_recv taskLog) subs s
      = Done (Continue subs) s' /\
    tasks (agg s') !! cstaskmanager.TaskIndex taskLog
      = Some (cstaskmanager.Task taskLog) /\
    (forall j, j ≠ cstaskmanager.TaskIndex taskLog ->
               tasks (agg s') !! j = tasks (agg s) !! j).
Proof.
  intros _. eexists. split; [apply Start_select_created_run|].
  cbn [agg tasks with_task]. split.
  - apply lookup_insert_eq.
  - intros j Hj. by apply lookup_insert_ne.
Qed.

End Registry.

Lemma duplicate_task_created_replaces_task_witness :
  is_Some (tasks (agg sample_state_5) !! 5%Z) /\
  exists s',
    Start_select (sample_Services (Some "task already initialized") None)
      (newTaskCreatedChan_recv (sample_log 5 4)) sample_subs sample_state_5
      = Done (Continue sample_subs) s' /\
    tasks (agg s') !! 5%Z = Some (sample_task 4) /\
    (forall j, j ≠ 5%Z -> tasks (agg s') !! j = tasks (agg sample_state_5) !! j).
Proof.
  assert (Hreg : is_Some (tasks (agg sample_state_5) !! 5%Z))
    by (exists (sample_task 3); reflexivity).
  split; [exact Hreg|].
  exact (duplicate_task_created_replaces_task
           (sample_Services (Some "task already initialized") None)
           (sample_log 5 4) sample_subs sample_state_5 Hreg).
Defined.

(** C1 fails on the code: task 5 is registered with payload 3, a second
    task-created event for index 5 carries payload 4, and afterwards the
    registry holds payload 4 under index 5, although the aggregation
    service rejected the second initialization. *)
Lemma duplicate_task_created_overwrites_task :
  ~ (forall s' : State,
       tasks (agg sample_state_5) !! 5%Z = Some (sample_task 3) ->
       Start_select (sample_Services (Some "task already initialized") None)
         (newTaskCreatedChan_recv (sample_log 5 4)) sample_subs sample_state_5
         = Done (Continue sample_subs) s' ->
       tasks (agg s') !! 5%Z = Some (sample_task 3)).
Proof.
  intros Hkept.
  specialize (Hkept _ eq_refl (Start_select_created_run _ _ _ _)).
  vm_compute in Hkept. discriminate Hkept.
Qed.

(** * The submission path *)

Section Submission.
Context `{Imports} (svc : Services).

(** C2, as the code has it: for a result without error the task is read
    from [tasks] under the result's index and the response from
    [taskResponses] under its index and digest, and these two values are
    the ones submitted. A missing task reads as the zero task and a missing
    response as the zero response; the call to [SendAggregatedResponse] is
    made with them all the same, and nothing panics. *)
Theorem submission_reads_registry_with_zero_defaults
    (blsAggServiceResp : blsagg.BlsAggregationServiceResponse) (s : State) :
  blsagg.Err blsAggServiceResp = None ->
  let T := blsagg.TaskIndex blsAggServiceResp in
  let D := blsagg.TaskResponseDigest blsAggServiceResp in
  exists (task : Task) (taskResponse : TaskResponse) (s' : State),
    sendAggregatedResponseToContract svc blsAggServiceResp s = Done tt s' /\
    (let h := trace s ++
       [LogInfo "Threshold reached. Sending aggregated response onchain.";
        SendAggregatedResponse task taskResponse
          (nonSignerStakesAndSignature_of blsAggServiceResp)] in
     trace s' = h ++ logged_if_error "Aggregator failed to respond to task"
                       (SendAggregatedResponse_ret svc h)) /\
    (forall t, tasks (agg s) !! T = Some t -> task = t) /\
    (tasks (agg s) !! T = None -> task = cstaskmanager.zero_Task) /\
    (forall m r, taskResponses (agg s) !! T = Some m -> m !! D = Some r ->
                 taskResponse = r) /\
    (taskResponses (agg s) !! T = None \/
     (exists m, taskResponses (agg s) !! T = Some m /\ m !! D = None) ->
     taskResponse = cstaskmanager.zero_TaskResponse).
Proof.
  intros He T D.
  exists (default cstaskmanager.zero_Task (tasks (agg s) !! T)).
  exists (default cstaskmanager.zero_TaskResponse
            (default ∅ (taskResponses (agg s) !! T) !! D)).
  eexists.
  split; [apply (sendAggregatedResponseToContract_ok_run svc _ _ He)|].
  split; [reflexivity|].
  split; [by intros t ->|]. split; [by intros ->|].
  split.
  - intros m r Hm Hr. rewrite Hm. simpl. by rewrite Hr.
  - intros [Hm|(m & Hm & Hr)]; rewrite Hm; simpl.
    + by rewrite lookup_empty.
    + by rewrite Hr.
Qed.

(** C8: for a result without error, exactly one [SendAggregatedResponse]
    call is made. When it returns an error, that error is logged and
    nothing follows the log: there is no second call. In both cases the
    aggregator, and so both registry maps, is left as it was. *)
Theorem one_submission_attempt_without_retry
    (blsAggServiceResp : blsagg.BlsAggregationServiceResponse) (s : State) :
  blsagg.Err blsAggServiceResp = None ->
  exists (c : Call) (after : list Call) (s' : State),
    sendAggregatedResponseToContract svc blsAggServiceResp s = Done tt s' /\
    agg s' = agg s /\
    is_SendAggregatedResponse c = true /\
    (let h := trace s ++
       [LogInfo "Threshold reached. Sending aggregated response onchain."; c] in
     trace s' = h ++ after /\
     count_calls is_SendAggregatedResponse
       ([LogInfo "Threshold reached. Sending aggregated response onchain."; c]
          ++ after) = 1 /\
     (forall e, SendAggregatedResponse_ret svc h = Some e ->
        after = [LogError "Aggregator failed to respond to task" (Some e)]) /\
     (SendAggregatedResponse_ret svc h = None -> after = [])).
Proof.
  intros He.
  eexists (SendAggregatedResponse _ _ _), (logged_if_error _ _), _.
  split; [apply (sendAggregatedResponseToContract_ok_run svc _ _ He)|].
  split; [reflexivity|]. split; [reflexivity|]. cbn zeta.
  split; [reflexivity|].
  split; [|split].
  - by destruct (SendAggregatedResponse_ret svc _).
  - by intros e ->.
  - by intros ->.
Qed.

(** C3: an aggregation result that carries an error makes the loop log
    the error once and panic with it, at that iteration and whatever the
    schedule holds after it. No [SendAggregatedResponse] call is made and
    the aggregator is left as it was. *)
Theorem aggregation_error_is_fatal
    (blsAggServiceResp : blsagg.BlsAggregationServiceResponse) (e : string)
    (sched : list Event) (subs : Subs) (s : State) :
  blsagg.Err blsAggServiceResp = Some e ->
  exists (added : list Call) (s' : State),
    Start_loop svc (ResponseChannel_recv blsAggServiceResp :: sched) subs s
      = Panic (Some e) s' /\
    sendAggregatedResponseToContract svc blsAggServiceResp s
      = Panic (Some e)
          {| agg := agg s;
             trace := trace s ++
               [LogError "BlsAggregationServiceResponse contains an error"
                         (Some e)] |} /\
    agg s' = agg s /\
    trace s' = trace s ++ added /\
    added = [LogInfo "Received response from blsAggregationService";
             LogError "BlsAggregationServiceResponse contains an error"
                      (Some e)] /\
    count_calls is_LogError added = 1 /\
    count_calls is_SendAggregatedResponse added = 0.
Proof.
  intros He. do 2 eexists.
  rewrite Start_loop_cons, (Start_select_response_err_run svc _ _ _ e He).
  split; [reflexivity|].
  split; [apply (sendAggregatedResponseToContract_err_run svc _ _ e He)|].
  repeat split.
Qed.

End Submission.

Lemma submission_reads_registry_with_zero_defaults_witness :
  blsagg.Err (sample_resp None 5 171) = None /\
  exists (task : Task) (taskResponse : TaskResponse) s',
    sendAggregatedResponseToContract (sample_Services None None)
      (sample_resp None 5 171) sample_state_5 = Done tt s' /\
    (let h := trace sample_state_5 ++
       [LogInfo "Threshold reached. Sending aggregated response onchain.";
        SendAggregatedResponse task taskResponse
          (nonSignerStakesAndSignature_of (sample_resp None 5 171))] in
     trace s' = h ++ logged_if_error "Aggregator failed to respond to task"
                       (SendAggregatedResponse_ret (sample_Services None None) h)) /\
    (forall t, tasks (agg sample_state_5) !! 5%Z = Some t -> task = t) /\
    (tasks (agg sample_state_5) !! 5%Z = None ->
     task = cstaskmanager.zero_Task) /\
    (forall m r, taskResponses (agg sample_state_5) !! 5%Z = Some m ->
                 m !! 171%Z = Some r -> taskResponse = r) /\
    (taskResponses (agg sample_state_5) !! 5%Z = None \/
     (exists m, taskResponses (agg sample_state_5) !! 5%Z = Some m /\
                m !! 171%Z = None) ->
     taskResponse = cstaskmanager.zero_TaskResponse).
Proof.
  split; [reflexivity|].
  exact (submission_reads_registry_with_zero_defaults
           (sample_Services None None) (sample_resp None 5 171)
           sample_state_5 eq_refl).
Defined.

(** C2 fails on the code: with both registry maps empty, a result without
    error for task 5 still ends in a [SendAggregatedResponse] call. *)
Lemma absent_task_is_still_submitted :
  ~ (forall s' : State,
       tasks (agg sample_state) !! 5%Z = None ->
       sendAggregatedResponseToContract (sample_Services None None)
         (sample_resp None 5 171) sample_state = Done tt s' ->
       count_calls is_SendAggregatedResponse (trace s') = 0).
Proof.
  intros Hkept.
  specialize (Hkept _ eq_refl
    (sendAggregatedResponseToContract_ok_run (sample_Services None None)
       (sample_resp None 5 171) sample_state eq_refl)).
  vm_compute in Hkept. discriminate Hkept.
Qed.

Lemma one_submission_attempt_without_retry_witness :
  blsagg.Err (sample_resp None 5 171) = None /\
  exists (c : Call) (after : list Call) s',
    sendAggregatedResponseToContract
      (sample_Services None (Some "execution reverted"))
      (sample_resp None 5 171) sample_state_5 = Done tt s' /\
    agg s' = agg sample_state_5 /\
    is_SendAggregatedResponse c = true /\
    (let h := trace sample_state_5 ++
       [LogInfo "Threshold reached. Sending aggregated response onchain."; c] in
     trace s' = h ++ after /\
     count_calls is_SendAggregatedResponse
       ([LogInfo "Threshold reached. Sending aggregated response onchain."; c]
          ++ after) = 1 /\
     (forall e,
        SendAggregatedResponse_ret
          (sample_Services None (Some "execution reverted")) h = Some e ->
        after = [LogError "Aggregator failed to respond to task" (Some e)]) /\
     (SendAggregatedResponse_ret
        (sample_Services None (Some "execution reverted")) h = None ->
      after = [])).
Proof.
  split; [reflexivity|].
  exact (one_submission_attempt_without_retry
           (sample_Services None (Some "execution reverted"))
           (sample_resp None 5 171) sample_state_5 eq_refl).
Defined.

Lemma aggregation_error_is_fatal_witness :
  blsagg.Err (sample_resp (Some "task expired") 5 171) = Some "task expired" /\
  exists (added : list Call) s',
    Start_loop (sample_Services None None)
      [ResponseChannel_recv (sample_resp (Some "task expired") 5 171);
       ctx_Done] sample_subs sample_state_5
      = Panic (Some "task expired") s' /\
    sendAggregatedResponseToContract (sample_Services None None)
      (sample_resp (Some "task expired") 5 171) sample_state_5
      = Panic (Some "task expired")
          {| agg := agg sample_state_5;
             trace := trace sample_state_5 ++
               [LogError "BlsAggregationServiceResponse contains an error"
                         (Some "task expired")] |} /\
    agg s' = agg sample_state_5 /\
    trace s' = trace sample_state_5 ++ added /\
    added = [LogInfo "Received response from blsAggregationService";
             LogError "BlsAggregationServiceResponse contains an error"
                      (Some "task expired")] /\
    count_calls is_LogError added = 1 /\
    count_calls is_SendAggregatedResponse added = 0.
Proof.
  split; [reflexivity|].
  exact (aggregation_error_is_fatal (sample_Services None None)
           (sample_resp (Some "task expired") 5 171) "task expired"
           [ctx_Done] sample_subs sample_state_5 eq_refl).
Defined.

(** * Opening an aggregation session *)

Section Sessions.
Context `{Imports} (svc : Services).

(** C4: processing a task-created event makes one [InitializeNewTask]
    call. Its quorum numbers are the task's quorum numbers, converted one
    by one and in the task's order, and it has as many thresholds as
    quorum numbers. A task with quorum numbers [0,1] and threshold 67 is
    initialized with the quorums 0 and 1, in this order, and the thresholds
    67 and 67. *)
Theorem InitializeNewTask_gets_quorums_in_order :
  (forall (taskLog : NewTaskCreated) (s : State),
     let t := cstaskmanager.Task taskLog in
     exists (err : error) (s' : State),
       processTaskCreatedLog svc taskLog s = Done err s' /\
       trace s' = trace s ++
         [InitializeNewTask (cstaskmanager.TaskIndex taskLog)
            (cstaskmanager.TaskCreatedBlock t)
            (quorumNums_of t) (quorumThresholdPercentages_of t)
            (taskChallengeWindowBlock * blockTimeSeconds)%Z] /\
       quorumNums_of t = map to_QuorumNum (cstaskmanager.QuorumNumbers t) /\
       length (quorumThresholdPercentages_of t) = length (quorumNums_of t)) /\
  (forall (index createdAtBlock : Z) (payload : option Z) (s : State),
     exists (err : error) (s' : State),
       processTaskCreatedLog svc
         {| cstaskmanager.TaskIndex := index;
            cstaskmanager.Task :=
              {| cstaskmanager.NumberToBeSquared := payload;
                 cstaskmanager.TaskCreatedBlock := createdAtBlock;
                 cstaskmanager.QuorumNumbers := [0%Z; 1%Z];
                 cstaskmanager.QuorumThresholdPercentage := 67%Z |} |} s
         = Done err s' /\
       trace s' = trace s ++
         [InitializeNewTask index createdAtBlock
            [to_QuorumNum 0%Z; to_QuorumNum 1%Z]
            [to_QuorumThresholdPercentage 67%Z;
             to_QuorumThresholdPercentage 67%Z]
            (taskChallengeWindowBlock * blockTimeSeconds)%Z]).
Proof.
  split.
  - intros taskLog s t. do 2 eexists.
    split; [apply processTaskCreatedLog_run|].
    split; [reflexivity|]. split; [apply quorumNums_of_map|].
    rewrite quorumNums_of_map, quorumThresholdPercentages_of_replicate.
    by rewrite length_replicate, length_map.
  - intros index createdAtBlock payload s. do 2 eexists.
    split; [apply processTaskCreatedLog_run|]. reflexivity.
Qed.

(** C5: the time to expiry handed to [InitializeNewTask] is the product
    of the challenge window of 100 blocks and the block time of 12
    seconds, that is 1200 seconds, for every event and so for every
    creation block. *)
Theorem taskTimeToExpiry_is_1200_seconds (taskLog : NewTaskCreated)
    (s : State) :
  exists (err : error) (s' : State) (quorumNums : list sdk_QuorumNum)
         (thresholds : list sdk_QuorumThresholdPercentage),
    processTaskCreatedLog svc taskLog s = Done err s' /\
    trace s' = trace s ++
      [InitializeNewTask (cstaskmanager.TaskIndex taskLog)
         (cstaskmanager.TaskCreatedBlock (cstaskmanager.Task taskLog))
         quorumNums thresholds (1200 * time.Second)%Z] /\
    (1200 * time.Second)%Z
      = (taskChallengeWindowBlock * blockTimeSeconds)%Z /\
    taskChallengeWindowBlock = 100%Z /\
    blockTimeSeconds = (12 * time.Second)%Z /\
    time.Second = 1000000000%Z.
Proof.
  do 4 eexists. split; [apply processTaskCreatedLog_run|].
  repeat split.
Qed.

(** C10: the thresholds handed to [InitializeNewTask] are the task's one
    [QuorumThresholdPercentage], converted to the threshold type of the
    sdk and repeated once per quorum number. Every entry of the list is
    that one value. *)
Theorem thresholds_repeat_the_scalar (taskLog : NewTaskCreated) (s : State) :
  let t := cstaskmanager.Task taskLog in
  let p := to_QuorumThresholdPercentage
             (cstaskmanager.QuorumThresholdPercentage t) in
  exists (err : error) (s' : State) (thresholds : list sdk_QuorumThresholdPercentage),
    processTaskCreatedLog svc taskLog s = Done err s' /\
    trace s' = trace s ++
      [InitializeNewTask (cstaskmanager.TaskIndex taskLog)
         (cstaskmanager.TaskCreatedBlock t)
         (quorumNums_of t) thresholds
         (taskChallengeWindowBlock * blockTimeSeconds)%Z] /\
    thresholds = replicate (length (cstaskmanager.QuorumNumbers t)) p /\
    Forall (eq p) thresholds.
Proof.
  intros t p. do 3 eexists. split; [apply processTaskCreatedLog_run|].
  split; [reflexivity|].
  split; [apply quorumThresholdPercentages_of_replicate|].
  rewrite quorumThresholdPercentages_of_replicate.
  apply Forall_replicate. reflexivity.
Qed.

End Sessions.

(** In the sample setting, where the conversions keep the value: task 5
    of block 1000 with quorum numbers [0,1] and threshold 67. *)
Example sample_InitializeNewTask_call :
  processTaskCreatedLog (sample_Services None None) (sample_log 5 3)
    sample_state
  = Done None
      {| agg := with_task (agg sample_state) 5%Z (sample_task 3);
         trace := [@InitializeNewTask sample_Imports 5%Z 1000%Z
                     [0%Z; 1%Z] [67%Z; 67%Z] 1200000000000%Z] |}.
Proof. reflexivity. Qed.

(** * The dispatch loop *)

Section Dispatch.
Context `{Imports} (svc : Services).

(** What [Start] does before it enters the loop. *)
Lemma Start_run (sched : list Event) (s : State) :
  Start svc sched s =
  let h1 := trace s ++
    [LogInfo "Starting aggregator";
     LogInfo "Starting aggregator rpc server.";
     GoStartServer;
     SubscribeToNewTasks (newTaskCreatedChan (agg s))] in
  let h2 := h1 ++ [SubscribeToTaskResponses (newTaskRespondedChan (agg s))] in
  Start_loop svc sched
    {| subTaskCreated := SubscribeToNewTasks_ret svc h1;
       subTaskResponded := SubscribeToTaskResponses_ret svc h2 |}
    {| agg := agg s; trace := h2 |}.
Proof.
  unfold Start. run_M. rewrite <- !app_assoc. reflexivity.
Qed.

Lemma Start_loop_Returned (sched : list Event) :
  forall (subs : Subs) (s s' : State) (err : error),
    Start_loop svc sched subs s = Done (Returned err) s' ->
    err = None /\ In ctx_Done sched.
Proof.
  induction sched as [|ev sched IH]; intros subs s s' err.
  - cbn. discriminate.
  - rewrite Start_loop_cons.
    destruct (Start_select svc ev subs s) as [[subs1|e1] s1|v s1] eqn:Hsel.
    + intros Hrest. destruct (IH _ _ _ _ Hrest) as [-> Hin].
      split; [done|by right].
    + destruct (Start_select_Return svc _ _ _ _ _ Hsel) as (-> & -> & ->).
      intros [= <- <-]. split; [done|by left].
    + discriminate.
Qed.

Lemma Start_loop_returns (sched : list Event) :
  forall (subs : Subs) (s : State),
    In ctx_Done sched ->
    forallb (fun ev => negb (carries_error ev)) sched = true ->
    exists s', Start_loop svc sched subs s = Done (Returned None) s'.
Proof.
  induction sched as [|ev sched IH]; intros subs s Hin Hok.
  - destruct Hin.
  - cbn [forallb] in Hok. apply andb_prop in Hok as [Hev Hok].
    rewrite Start_loop_cons.
    destruct (Start_select svc ev subs s) as [[subs1|e1] s1|v s1] eqn:Hsel.
    + destruct Hin as [->|Hin].
      * rewrite Start_select_done_run in Hsel. discriminate.
      * by apply IH.
    + destruct (Start_select_Return svc _ _ _ _ _ Hsel) as (_ & -> & _).
      by eexists.
    + apply Start_select_Panic in Hsel. rewrite Hsel in Hev. discriminate.
Qed.

(** The loop over a schedule in two parts. *)
Lemma Start_loop_app (pre post : list Event) :
  forall (subs : Subs) (s : State),
    Start_loop svc (pre ++ post) subs s =
    match Start_loop svc pre subs s with
    | Done (Selecting subs1) s1 => Start_loop svc post subs1 s1
    | Done (Returned err) s1 => Done (Returned err) s1
    | Panic v s1 => Panic v s1
    end.
Proof.
  induction pre as [|ev pre IH]; intros subs s; [reflexivity|].
  cbn [app]. rewrite !Start_loop_cons.
  destruct (Start_select svc ev subs s) as [[subs1|e1] s1|v s1];
    [apply IH|reflexivity|reflexivity].
Qed.

(** No iteration assigns to the two channel fields of the aggregator. *)
Lemma Start_select_keeps_channels (ev : Event) (subs : Subs) (s s' : State)
    (flow : Flow) :
  Start_select svc ev subs s = Done flow s' ->
  newTaskCreatedChan (agg s') = newTaskCreatedChan (agg s) /\
  newTaskRespondedChan (agg s') = newTaskRespondedChan (agg s).
Proof.
  destruct ev as [|e|l|e|l|r].
  - rewrite Start_select_done_run. by intros [= _ <-].
  - rewrite Start_select_subTaskCreated_Err_run. by intros [= _ <-].
  - rewrite Start_select_created_run. by intros [= _ <-].
  - rewrite Start_select_subTaskResponded_Err_run. by intros [= _ <-].
  - rewrite Start_select_responded_run. by intros [= _ <-].
  - destruct (blsagg.Err r) as [e|] eqn:He.
    + rewrite (Start_select_response_err_run svc _ _ _ e He). discriminate.
    + rewrite (Start_select_response_ok_run svc _ _ _ He). by intros [= _ <-].
Qed.

Lemma Start_loop_keeps_channels (sched : list Event) :
  forall (subs : Subs) (s s' : State) (exit : Exit),
    Start_loop svc sched subs s = Done exit s' ->
    newTaskCreatedChan (agg s') = newTaskCreatedChan (agg s) /\
    newTaskRespondedChan (agg s') = newTaskRespondedChan (agg s).
Proof.
  induction sched as [|ev sched IH]; intros subs s s' exit.
  - cbn. by intros [= _ <-].
  - rewrite Start_loop_cons.
    destruct (Start_select svc ev subs s) as [[subs1|e1] s1|v s1] eqn:Hsel;
      [|intros [= _ <-]|discriminate].
    + intros Hrest. apply IH in Hrest as [-> ->].
      by apply Start_select_keeps_channels in Hsel.
    + by apply Start_select_keeps_channels in Hsel.
Qed.

(** The trace only grows. *)
Lemma Start_select_grows (ev : Event) (subs : Subs) (s s' : State)
    (flow : Flow) :
  Start_select svc ev subs s = Done flow s' ->
  exists added, trace s' = trace s ++ added.
Proof.
  destruct ev as [|e|l|e|l|r].
  - rewrite Start_select_done_run. intros [= _ <-].
    exists []. by rewrite app_nil_r.
  - rewrite Start_select_subTaskCreated_Err_run. intros [= _ <-]. by eexists.
  - rewrite Start_select_created_run. intros [= _ <-].
    cbn [trace]. rewrite <- app_assoc. by eexists.
  - rewrite Start_select_subTaskResponded_Err_run. intros [= _ <-].
    by eexists.
  - rewrite Start_select_responded_run. intros [= _ <-]. by eexists.
  - destruct (blsagg.Err r) as [e|] eqn:He.
    + rewrite (Start_select_response_err_run svc _ _ _ e He). discriminate.
    + rewrite (Start_select_response_ok_run svc _ _ _ He). intros [= _ <-].
      cbn [trace]. rewrite <- app_assoc. by eexists.
Qed.

Lemma Start_loop_grows (sched : list Event) :
  forall (subs : Subs) (s s' : State) (exit : Exit),
    Start_loop svc sched subs s = Done exit s' ->
    exists added, trace s' = trace s ++ added.
Proof.
  induction sched as [|ev sched IH]; intros subs s s' exit.
  - cbn. intros [= _ <-]. exists []. by rewrite app_nil_r.
  - rewrite Start_loop_cons.
    destruct (Start_select svc ev subs s) as [[subs1|e1] s1|v s1] eqn:Hsel;
      [|intros [= _ <-]|discriminate].
    + intros Hrest. apply IH in Hrest as [added2 ->].
      apply Start_select_grows in Hsel as [added1 ->].
      exists (added1 ++ added2). by rewrite app_assoc.
    + by apply Start_select_grows in Hsel.
Qed.

(** C6: [Start] returns only when its schedule holds a cancellation, and
    what it returns is nil. A schedule with a cancellation and no failed
    aggregation result does make it return, and the cancellation is acted
    on without touching the state. An error that [processTaskCreatedLog]
    returns is logged and the loop goes on with the rest of the schedule,
    with the subscriptions it had. *)
Theorem Start_returns_only_on_cancellation :
  (forall (sched : list Event) (s s' : State) (err : error),
     Start svc sched s = Done (Returned err) s' ->
     err = None /\ In ctx_Done sched) /\
  (forall (sched : list Event) (s : State),
     In ctx_Done sched ->
     forallb (fun ev => negb (carries_error ev)) sched = true ->
     exists s', Start svc sched s = Done (Returned None) s') /\
  (forall (sched : list Event) (subs : Subs) (s : State),
     Start_loop svc (ctx_Done :: sched) subs s = Done (Returned None) s) /\
  (forall (taskLog : NewTaskCreated) (sched : list Event) (subs : Subs)
          (s s1 : State) (e : string),
     processTaskCreatedLog svc taskLog
       {| agg := agg s; trace := trace s ++ [LogInfo "Received new task"] |}
       = Done (Some e) s1 ->
     Start_loop svc (newTaskCreatedChan_recv taskLog :: sched) subs s
     = Start_loop svc sched subs
         {| agg := agg s1;
            trace := trace s1 ++
              [LogError "Failed to process new task" (Some e)] |}).
Proof.
  split; [|split; [|split]].
  - intros sched s s' err. rewrite Start_run. apply Start_loop_Returned.
  - intros sched s Hin Hok. rewrite Start_run. by apply Start_loop_returns.
  - intros sched subs s. by rewrite Start_loop_cons, Start_select_done_run.
  - intros taskLog sched subs s s1 e Hproc.
    rewrite Start_loop_cons. cbn [Start_select]. run_M.
    rewrite Hproc. reflexivity.
Qed.

(** C7: an error on the error channel of either subscription is logged,
    the subscription it came from is unsubscribed, and a new subscription
    to the aggregator's same channel takes its place; the aggregator is
    left as it was. A task-created event that follows is registered and
    initialized as any other, and a task-responded event that follows is
    logged as any other. Wherever a run of [Start] waits in [select], the
    channel of the new subscription is the one [Start] subscribed first. *)
Theorem subscription_error_resubscribes :
  (forall (err : error) (subs : Subs) (s : State),
     let h := trace s ++
       [LogError "Error in websocket subscription for NewTaskCreated" err;
        Unsubscribe (subTaskCreated subs);
        SubscribeToNewTasks (newTaskCreatedChan (agg s))] in
     Start_select svc (subTaskCreated_Err err) subs s
     = Done (Continue {| subTaskCreated := SubscribeToNewTasks_ret svc h;
                         subTaskResponded := subTaskResponded subs |})
            {| agg := agg s; trace := h |}) /\
  (forall (err : error) (subs : Subs) (s : State),
     let h := trace s ++
       [LogError "Error in websocket subscription for TaskResponded" err;
        Unsubscribe (subTaskResponded subs);
        SubscribeToTaskResponses (newTaskRespondedChan (agg s))] in
     Start_select svc (subTaskResponded_Err err) subs s
     = Done (Continue {| subTaskCreated := subTaskCreated subs;
                         subTaskResponded := SubscribeToTaskResponses_ret svc h |})
            {| agg := agg s; trace := h |}) /\
  (forall (err : error) (taskLog : NewTaskCreated) (sched : list Event)
          (subs : Subs) (s : State),
     let t := cstaskmanager.Task taskLog in
     let h := trace s ++
       [LogError "Error in websocket subscription for NewTaskCreated" err;
        Unsubscribe (subTaskCreated subs);
        SubscribeToNewTasks (newTaskCreatedChan (agg s))] in
     let h' := h ++
       [LogInfo "Received new task";
        InitializeNewTask (cstaskmanager.TaskIndex taskLog)
          (cstaskmanager.TaskCreatedBlock t)
          (quorumNums_of t) (quorumThresholdPercentages_of t)
          (taskChallengeWindowBlock * blockTimeSeconds)%Z] in
     Start_loop svc
       (subTaskCreated_Err err :: newTaskCreatedChan_recv taskLog :: sched)
       subs s
     = Start_loop svc sched
         {| subTaskCreated := SubscribeToNewTasks_ret svc h;
            subTaskResponded := subTaskResponded subs |}
         {| agg := with_task (agg s) (cstaskmanager.TaskIndex taskLog) t;
            trace := h' ++ logged_if_error "Failed to process new task"
                             (InitializeNewTask_ret svc h') |}) /\
  (forall (err : error) (taskRespondedLog : TaskResponded)
          (sched : list Event) (subs : Subs) (s : State),
     let h := trace s ++
       [LogError "Error in websocket subscription for TaskResponded" err;
        Unsubscribe (subTaskResponded subs);
        SubscribeToTaskResponses (newTaskRespondedChan (agg s))] in
     Start_loop svc
       (subTaskResponded_Err err
          :: newTaskRespondedChan_recv taskRespondedLog :: sched)
       subs s
     = Start_loop svc sched
         {| subTaskCreated := subTaskCreated subs;
            subTaskResponded := SubscribeToTaskResponses_ret svc h |}
         {| agg := agg s;
            trace := h ++
              [LogInfo "Received task response successfully!; taskRespondedLog: %#v"] |}) /\
  (forall (pre : list Event) (err : error) (s s1 : State) (subs1 : Subs),
     Start svc pre s = Done (Selecting subs1) s1 ->
     exists first : list Call,
       trace s1 = trace s ++
         [LogInfo "Starting aggregator";
          LogInfo "Starting aggregator rpc server.";
          GoStartServer;
          SubscribeToNewTasks (newTaskCreatedChan (agg s));
          SubscribeToTaskResponses (newTaskRespondedChan (agg s))] ++ first /\
       (let h := trace s1 ++
          [LogError "Error in websocket subscription for NewTaskCreated" err;
           Unsubscribe (subTaskCreated subs1);
           SubscribeToNewTasks (newTaskCreatedChan (agg s))] in
        Start svc (pre ++ [subTaskCreated_Err err]) s
        = Done (Selecting
                  {| subTaskCreated := SubscribeToNewTasks_ret svc h;
                     subTaskResponded := subTaskResponded subs1 |})
               {| agg := agg s1; trace := h |}) /\
       (let h := trace s1 ++
          [LogError "Error in websocket subscription for TaskResponded" err;
           Unsubscribe (subTaskResponded subs1);
           SubscribeToTaskResponses (newTaskRespondedChan (agg s))] in
        Start svc (pre ++ [subTaskResponded_Err err]) s
        = Done (Selecting
                  {| subTaskCreated := subTaskCreated subs1;
                     subTaskResponded := SubscribeToTaskResponses_ret svc h |})
               {| agg := agg s1; trace := h |})).
Proof.
  split; [|split; [|split; [|split]]].
  - intros. apply Start_select_subTaskCreated_Err_run.
  - intros. apply Start_select_subTaskResponded_Err_run.
  - intros err taskLog sched subs s t h h'.
    rewrite Start_loop_cons, Start_select_subTaskCreated_Err_run.
    cbv beta iota zeta.
    rewrite Start_loop_cons, Start_select_created_run. reflexivity.
  - intros err taskRespondedLog sched subs s h.
    rewrite Start_loop_cons, Start_select_subTaskResponded_Err_run.
    cbv beta iota zeta.
    rewrite Start_loop_cons, Start_select_responded_run. reflexivity.
  - intros pre err s s1 subs1. rewrite !Start_run. cbv zeta. intros Hpre.
    destruct (Start_loop_keeps_channels _ _ _ _ _ Hpre) as [Hc Hr].
    cbn [agg] in Hc, Hr.
    destruct (Start_loop_grows _ _ _ _ _ Hpre) as [first Hfirst].
    cbn [trace] in Hfirst.
    exists first. split.
    + rewrite Hfirst, <- !app_assoc. reflexivity.
    + rewrite !Start_loop_app, Hpre, !Start_loop_cons.
      rewrite Start_select_subTaskCreated_Err_run,
              Start_select_subTaskResponded_Err_run.
      cbv beta iota zeta. cbn [Start_loop]. rewrite Hc, Hr. by split.
Qed.

(** C9: handling a task-responded event writes one info log and nothing
    else. The aggregator, with both maps and every other field, and the
    two subscriptions are what they were, and the loop goes on to its next
    iteration: no error is returned or logged and nothing panics. *)
Theorem task_responded_changes_nothing (taskRespondedLog : TaskResponded)
    (subs : Subs) (s : State) :
  exists s' : State,
    Start_select svc (newTaskRespondedChan_recv taskRespondedLog) subs s
      = Done (Continue subs) s' /\
    agg s' = agg s /\
    tasks (agg s') = tasks (agg s) /\
    taskResponses (agg s') = taskResponses (agg s) /\
    trace s' = trace s ++
      [LogInfo "Received task response successfully!; taskRespondedLog: %#v"] /\
    count_calls is_LogError (trace s') = count_calls is_LogError (trace s).
Proof.
  eexists. split; [apply Start_select_responded_run|].
  cbn [agg trace]. repeat split.
  unfold count_calls. rewrite List.filter_app, length_app. cbn. lia.
Qed.

End Dispatch.

Lemma Start_returns_only_on_cancellation_witness :
  exists s' : @State sample_Imports,
    Start (sample_Services (Some "task already initialized") None)
      [newTaskCreatedChan_recv (sample_log 5 4); ctx_Done] sample_state_5
      = Done (Returned None) s' /\
    (None : error) = None /\
    In (@ctx_Done sample_Imports)
       [newTaskCreatedChan_recv (sample_log 5 4); ctx_Done] /\
    exists s1 : @State sample_Imports,
      processTaskCreatedLog
        (sample_Services (Some "task already initialized") None)
        (sample_log 5 4)
        {| agg := agg sample_state_5;
           trace := trace sample_state_5 ++ [LogInfo "Received new task"] |}
        = Done (Some "task already initialized") s1 /\
      Start_loop (sample_Services (Some "task already initialized") None)
        [newTaskCreatedChan_recv (sample_log 5 4); ctx_Done]
        sample_subs sample_state_5
      = Start_loop (sample_Services (Some "task already initialized") None)
          [ctx_Done] sample_subs
          {| agg := agg s1;
             trace := trace s1 ++
               [LogError "Failed to process new task"
                         (Some "task already initialized")] |}.
Proof.
  pose proof (Start_returns_only_on_cancellation
                (sample_Services (Some "task already initialized") None))
    as (Honly & Hreturns & _ & Hlogged).
  destruct (Hreturns
              [newTaskCreatedChan_recv (sample_log 5 4); ctx_Done]
              sample_state_5 (or_intror (or_introl eq_refl)) eq_refl)
    as [s' Hs'].
  exists s'. split; [exact Hs'|].
  split; [exact (proj1 (Honly _ _ _ _ Hs'))|].
  split; [exact (proj2 (Honly _ _ _ _ Hs'))|].
  pose proof (processTaskCreatedLog_run
                (sample_Services (Some "task already initialized") None)
                (sample_log 5 4)
                {| agg := agg sample_state_5;
                   trace := trace sample_state_5 ++
                              [LogInfo "Received new task"] |}) as Hrun.
  eexists. split; [exact Hrun|].
  exact (Hlogged (sample_log 5 4) [ctx_Done] sample_subs sample_state_5 _
           "task already initialized" Hrun).
Defined.

Lemma subscription_error_resubscribes_witness :
  Start (sample_Services None None)
    [newTaskCreatedChan_recv (sample_log 5 3)] sample_state
  = Done (Selecting sample_subs) sample_started_5 /\
  exists first : list (@Call sample_Imports),
    trace sample_started_5 = trace sample_state ++
      [LogInfo "Starting aggregator";
       LogInfo "Starting aggregator rpc server.";
       GoStartServer;
       SubscribeToNewTasks 1%Z;
       SubscribeToTaskResponses 2%Z] ++ first /\
    Start (sample_Services None None)
      ([newTaskCreatedChan_recv (sample_log 5 3)]
         ++ [subTaskCreated_Err (Some "websocket: close 1006")]) sample_state
    = Done (Selecting {| subTaskCreated := 10%Z; subTaskResponded := 5%Z |})
           {| agg := agg sample_started_5;
              trace := trace sample_started_5 ++
                [LogError "Error in websocket subscription for NewTaskCreated"
                          (Some "websocket: close 1006");
                 Unsubscribe 4%Z;
                 SubscribeToNewTasks 1%Z] |}.
Proof.
  assert (Hpre : Start (sample_Services None None)
                   [newTaskCreatedChan_recv (sample_log 5 3)] sample_state
                 = Done (Selecting sample_subs) sample_started_5)
    by (vm_compute; reflexivity).
  split; [exact Hpre|].
  destruct (proj2 (proj2 (proj2 (proj2
              (subscription_error_resubscribes (sample_Services None None)))))
              [newTaskCreatedChan_recv (sample_log 5 3)]
              (Some "websocket: close 1006")
              sample_state sample_started_5 sample_subs Hpre)
    as (first & Hfirst & Hcreated & _).
  exists first. split; [exact Hfirst|exact Hcreated].
Defined.

(** * Runs of the dispatch loop *)

Section LoopRuns.
Context `{Imports} (svc : Services).

Lemma count_calls_app (p : Call -> bool) (a b : list Call) :
  count_calls p (a ++ b) = count_calls p a + count_calls p b.
Proof. unfold count_calls. by rewrite List.filter_app, length_app. Qed.

Lemma count_calls_logged_if_error (p : Call -> bool) (msg : string)
    (err : error) :
  (forall m e, p (LogError m e) = false) ->
  count_calls p (logged_if_error msg err) = 0.
Proof.
  intros Hp. destruct err as [e|]; [|reflexivity].
  cbn. unfold count_calls. cbn. by rewrite Hp.
Qed.

(** What one iteration leaves of the aggregator. *)
Lemma Start_select_agg (ev : Event) (subs : Subs) (s : State) :
  agg (final_state (Start_select svc ev subs s)) =
  match ev with
  | newTaskCreatedChan_recv taskLog =>
      with_task (agg s) (cstaskmanager.TaskIndex taskLog)
        (cstaskmanager.Task taskLog)
  | _ => agg s
  end.
Proof.
  destruct ev as [|e|l|e|l|r].
  - by rewrite Start_select_done_run.
  - by rewrite Start_select_subTaskCreated_Err_run.
  - by rewrite Start_select_created_run.
  - by rewrite Start_select_subTaskResponded_Err_run.
  - by rewrite Start_select_responded_run.
  - destruct (blsagg.Err r) as [e|] eqn:He.
    + by rewrite (Start_select_response_err_run svc _ _ _ e He).
    + by rewrite (Start_select_response_ok_run svc _ _ _ He).
Qed.

(** A relation between states that every iteration respects is respected
    by every run of the loop, whether it waits, returns or panics. *)
Lemma Start_loop_invariant (P : State -> State -> Prop) :
  (forall s, P s s) ->
  (forall a b c, P a b -> P b c -> P a c) ->
  (forall ev subs s, P s (final_state (Start_select svc ev subs s))) ->
  forall sched subs s, P s (final_state (Start_loop svc sched subs s)).
Proof.
  intros Hrefl Htrans Hstep.
  induction sched as [|ev sched IH]; intros subs s; [apply Hrefl|].
  rewrite Start_loop_cons. pose proof (Hstep ev subs s) as Hev.
  destruct (Start_select svc ev subs s) as [[subs1|e1] s1|v s1];
    cbn [final_state] in *; [|exact Hev|exact Hev].
  exact (Htrans _ _ _ Hev (IH subs1 s1)).
Qed.

(** The registry after a schedule has been processed to its end. *)
Lemma Start_loop_tasks (sched : list Event) :
  forall (subs subs' : Subs) (s s' : State) (k : types.TaskIndex),
    Start_loop svc sched subs s = Done (Selecting subs') s' ->
    tasks (agg s') !! k =
    match last_created k (created_logs sched) with
    | Some t => Some t
    | None => tasks (agg s) !! k
    end.
Proof.
  induction sched as [|ev sched IH]; intros subs subs' s s' k.
  - cbn. by intros [= _ <-].
  - rewrite Start_loop_cons. pose proof (Start_select_agg ev subs s) as Hagg.
    destruct (Start_select svc ev subs s) as [[subs1|e1] s1|v s1];
      [|discriminate|discriminate].
    cbn [final_state] in Hagg. intros Hrest.
    rewrite (IH _ _ _ _ k Hrest), Hagg.
    destruct ev as [|e|l|e|l|r]; cbn [created_logs last_created]; try done.
    destruct (last_created k (created_logs sched)); [done|].
    cbn [with_task tasks]. rewrite lookup_insert.
    by destruct (decide (cstaskmanager.TaskIndex l = k)).
Qed.

Ltac step_cases ev :=
  let He := fresh "He" in
  destruct ev as [|e|l|e|l|r];
  [ rewrite Start_select_done_run
  | rewrite Start_select_subTaskCreated_Err_run
  | rewrite Start_select_created_run
  | rewrite Start_select_subTaskResponded_Err_run
  | rewrite Start_select_responded_run
  | destruct (blsagg.Err r) as [e|] eqn:He;
    [ rewrite (Start_select_response_err_run svc _ _ _ e He)
    | rewrite (Start_select_response_ok_run svc _ _ _ He) ] ].

Lemma count_events_cons (p : Event -> bool) (ev : Event) (sched : list Event) :
  count_events p (ev :: sched)
  = (if p ev then 1 else 0) + count_events p sched.
Proof. unfold count_events. cbn. by destruct (p ev). Qed.

(** What one iteration adds to the calls that are counted below. *)
Lemma Start_select_counts (ev : Event) (subs : Subs) (s : State) :
  let s' := final_state (Start_select svc ev subs s) in
  count_calls is_SendAggregatedResponse (trace s')
  = count_calls is_SendAggregatedResponse (trace s)
    + (if delivers_result ev then 1 else 0) /\
  count_calls is_InitializeNewTask (trace s')
  = count_calls is_InitializeNewTask (trace s)
    + (if is_created ev then 1 else 0) /\
  count_calls is_Subscribe (trace s') + count_calls is_Unsubscribe (trace s)
  = count_calls is_Subscribe (trace s) + count_calls is_Unsubscribe (trace s').
Proof.
  cbv zeta. step_cases ev; cbn [final_state trace delivers_result is_created];
    rewrite ?He, ?count_calls_app, ?count_calls_logged_if_error by done;
    cbn; lia.
Qed.

Lemma last_created_None (k : types.TaskIndex) (logs : list NewTaskCreated) :
  Forall (fun taskLog => cstaskmanager.TaskIndex taskLog ≠ k) logs ->
  last_created k logs = None.
Proof.
  induction 1 as [|a logs Ha _ IH]; [reflexivity|].
  cbn. rewrite IH. by destruct (decide _).
Qed.

Lemma last_created_NoDup (logs : list NewTaskCreated) (taskLog : NewTaskCreated) :
  NoDup (map cstaskmanager.TaskIndex logs) ->
  In taskLog logs ->
  last_created (cstaskmanager.TaskIndex taskLog) logs
  = Some (cstaskmanager.Task taskLog).
Proof.
  induction logs as [|a logs IH]; intros Hnd Hin; [destruct Hin|].
  cbn [map] in Hnd. apply NoDup_cons in Hnd as [Ha Hnd].
  cbn [last_created]. destruct Hin as [->|Hin].
  - rewrite last_created_None; [by destruct (decide _)|].
    apply Forall_forall. intros b Hb Heq. apply Ha.
    rewrite <- Heq. apply list_elem_of_In, in_map. by apply list_elem_of_In.
  - by rewrite (IH Hnd Hin).
Qed.

(** X1: once a schedule has been processed to its end, the task found
    under an index is the task of the last task-created event of the
    schedule with that index; an index that no event of the schedule
    carries holds what it held before. *)
Theorem registry_holds_last_created_task (sched : list Event)
    (subs subs' : Subs) (s s' : State) (k : types.TaskIndex) :
  Start_loop svc sched subs s = Done (Selecting subs') s' ->
  tasks (agg s') !! k =
  match last_created k (created_logs sched) with
  | Some t => Some t
  | None => tasks (agg s) !! k
  end.
Proof. apply Start_loop_tasks. Qed.

(** X2: when the task-created events of a schedule carry pairwise
    distinct indices, none of them is lost: after the schedule has been
    processed, each event's task is found under its index. *)
Theorem distinct_indices_are_all_registered (sched : list Event)
    (subs subs' : Subs) (s s' : State) :
  NoDup (map cstaskmanager.TaskIndex (created_logs sched)) ->
  Start_loop svc sched subs s = Done (Selecting subs') s' ->
  forall taskLog : NewTaskCreated,
    In taskLog (created_logs sched) ->
    tasks (agg s') !! cstaskmanager.TaskIndex taskLog
    = Some (cstaskmanager.Task taskLog).
Proof.
  intros Hnd Hrun taskLog Hin.
  rewrite (Start_loop_tasks _ _ _ _ _ _ Hrun).
  by rewrite (last_created_NoDup _ _ Hnd Hin).
Qed.

(** X3: no run of the loop, however it ends, writes to [taskResponses],
    to the server address or to either channel field. *)
Theorem loop_writes_only_tasks (sched : list Event) (subs : Subs) (s : State) :
  let s' := final_state (Start_loop svc sched subs s) in
  taskResponses (agg s') = taskResponses (agg s) /\
  serverIpPortAddr (agg s') = serverIpPortAddr (agg s) /\
  newTaskCreatedChan (agg s') = newTaskCreatedChan (agg s) /\
  newTaskRespondedChan (agg s') = newTaskRespondedChan (agg s).
Proof.
  cbv zeta. revert sched subs s.
  apply (Start_loop_invariant (fun s s' =>
    taskResponses (agg s') = taskResponses (agg s) /\
    serverIpPortAddr (agg s') = serverIpPortAddr (agg s) /\
    newTaskCreatedChan (agg s') = newTaskCreatedChan (agg s) /\
    newTaskRespondedChan (agg s') = newTaskRespondedChan (agg s))).
  - done.
  - intros a b c (-> & -> & -> & ->) (-> & -> & -> & ->). done.
  - intros ev subs s. rewrite Start_select_agg. by destruct ev.
Qed.

(** X4: no run of the loop, however it ends, removes a task: an index
    that is registered stays registered. *)
Theorem registry_never_shrinks (sched : list Event) (subs : Subs) (s : State)
    (k : types.TaskIndex) :
  is_Some (tasks (agg s) !! k) ->
  is_Some (tasks (agg (final_state (Start_loop svc sched subs s))) !! k).
Proof.
  revert k. revert sched subs s.
  apply (Start_loop_invariant (fun s s' =>
    forall k, is_Some (tasks (agg s) !! k) -> is_Some (tasks (agg s') !! k))).
  - done.
  - intros a b c Hab Hbc k Hk. by apply Hbc, Hab.
  - intros ev subs s k Hk. rewrite Start_select_agg.
    destruct ev; try done.
    cbn [with_task tasks]. apply lookup_insert_is_Some'. by right.
Qed.

(** X5: in every run of the loop, however it ends, at most one
    [SendAggregatedResponse] call is made per aggregation result without
    error in the schedule, and at most one [InitializeNewTask] call per
    task-created event. *)
Theorem at_most_one_call_per_event (sched : list Event) (subs : Subs)
    (s : State) :
  let s' := final_state (Start_loop svc sched subs s) in
  count_calls is_SendAggregatedResponse (trace s')
  <= count_calls is_SendAggregatedResponse (trace s)
     + count_events delivers_result sched /\
  count_calls is_InitializeNewTask (trace s')
  <= count_calls is_InitializeNewTask (trace s)
     + count_events is_created sched.
Proof.
  cbv zeta. revert subs s.
  induction sched as [|ev sched IH]; intros subs s; [cbn; lia|].
  rewrite Start_loop_cons, !count_events_cons.
  pose proof (Start_select_counts ev subs s) as (Hsend & Hinit & _).
  destruct (Start_select svc ev subs s) as [[subs1|e1] s1|v s1];
    cbn [final_state] in *; [|lia|lia].
  specialize (IH subs1 s1). lia.
Qed.

(** X6: when a schedule is processed to its end, the calls are exactly
    one [SendAggregatedResponse] per aggregation result and one
    [InitializeNewTask] per task-created event, whatever these calls
    return. *)
Theorem exactly_one_call_per_event (sched : list Event) :
  forall (subs subs' : Subs) (s s' : State),
    Start_loop svc sched subs s = Done (Selecting subs') s' ->
    count_calls is_SendAggregatedResponse (trace s')
    = count_calls is_SendAggregatedResponse (trace s)
      + count_events delivers_result sched /\
    count_calls is_InitializeNewTask (trace s')
    = count_calls is_InitializeNewTask (trace s)
      + count_events is_created sched.
Proof.
  induction sched as [|ev sched IH]; intros subs subs' s s'.
  - cbn. intros [= _ <-]. lia.
  - rewrite Start_loop_cons, !count_events_cons.
    pose proof (Start_select_counts ev subs s) as (Hsend & Hinit & _).
    destruct (Start_select svc ev subs s) as [[subs1|e1] s1|v s1];
      cbn [final_state] in *; [|discriminate|discriminate].
    intros Hrest. destruct (IH _ _ _ _ Hrest). lia.
Qed.


(** X8: what follows a cancellation or a failed aggregation result in a
    schedule is never processed: the run is the run of the schedule cut
    after that event. *)
Theorem nothing_is_processed_after_the_end (pre post : list Event)
    (ev : Event) (subs : Subs) (s : State) :
  ends_loop ev = true ->
  Start_loop svc (pre ++ ev :: post) subs s
  = Start_loop svc (pre ++ [ev]) subs s.
Proof.
  intros Hev. rewrite !Start_loop_app.
  destruct (Start_loop svc pre subs s) as [[e1|subs1] s1|v s1]; try done.
  rewrite !Start_loop_cons.
  destruct ev as [|e|l|e|l|r]; try discriminate Hev.
  - by rewrite Start_select_done_run.
  - cbn in Hev. destruct (blsagg.Err r) as [e|] eqn:He; [|discriminate].
    by rewrite (Start_select_response_err_run svc _ _ _ e He).
Qed.

(** X9: a schedule without cancellation and without failed aggregation
    result is processed to its end, whatever [InitializeNewTask],
    [SendAggregatedResponse] and the subscriber return: an error of a
    collaborator never ends the loop. *)
Theorem collaborator_errors_never_end_the_loop (sched : list Event) :
  forall (subs : Subs) (s : State),
    forallb (fun ev => negb (ends_loop ev)) sched = true ->
    exists (subs' : Subs) (s' : State),
      Start_loop svc sched subs s = Done (Selecting subs') s'.
Proof.
  induction sched as [|ev sched IH]; intros subs s Hok; [by do 2 eexists|].
  cbn [forallb] in Hok. apply andb_prop in Hok as [Hev Hok].
  rewrite Start_loop_cons.
  destruct (Start_select svc ev subs s) as [[subs1|e1] s1|v s1] eqn:Hsel.
  - by apply IH.
  - apply Start_select_Return in Hsel as (-> & _). discriminate Hev.
  - apply Start_select_Panic in Hsel.
    destruct ev; try discriminate Hsel.
    cbn [ends_loop] in Hev. by rewrite Hsel in Hev.
Qed.

(** X10: a task registered by a task-created event is the task submitted
    for a later aggregation result with its index, as long as no
    task-created event in between carries the same index. *)
Theorem registered_task_is_the_one_submitted (taskLog : NewTaskCreated)
    (mid : list Event) (blsAggServiceResp : blsagg.BlsAggregationServiceResponse)
    (subs subs1 : Subs) (s s1 : State) :
  blsagg.Err blsAggServiceResp = None ->
  blsagg.TaskIndex blsAggServiceResp = cstaskmanager.TaskIndex taskLog ->
  forallb (fun ev => negb (creates (cstaskmanager.TaskIndex taskLog) ev)) mid
    = true ->
  Start_loop svc (newTaskCreatedChan_recv taskLog :: mid) subs s
    = Done (Selecting subs1) s1 ->
  exists (taskResponse : TaskResponse) (errlog : list Call) (s2 : State),
    Start_loop svc
      ((newTaskCreatedChan_recv taskLog :: mid)
         ++ [ResponseChannel_recv blsAggServiceResp]) subs s
      = Done (Selecting subs1) s2 /\
    trace s2 = trace s1 ++
      [LogInfo "Received response from blsAggregationService";
       LogInfo "Threshold reached. Sending aggregated response onchain.";
       SendAggregatedResponse (cstaskmanager.Task taskLog) taskResponse
         (nonSignerStakesAndSignature_of blsAggServiceResp)] ++ errlog.
Proof.
  intros He Hidx Hmid Hrun.
  assert (Hlook : tasks (agg s1) !! blsagg.TaskIndex blsAggServiceResp
                  = Some (cstaskmanager.Task taskLog)).
  { rewrite (Start_loop_tasks _ _ _ _ _ _ Hrun), Hidx.
    cbn [created_logs last_created]. rewrite last_created_None.
    - by destruct (decide _).
    - clear Hrun. induction mid as [|ev mid IH]; [constructor|].
      cbn [forallb] in Hmid. apply andb_prop in Hmid as [Hev Hmid].
      destruct ev as [|e|l|e|l|r]; cbn [created_logs]; try by apply IH.
      constructor; [|by apply IH].
      cbn in Hev. apply negb_true_iff, bool_decide_eq_false in Hev. done. }
  rewrite Start_loop_app, Hrun, Start_loop_cons.
  rewrite (Start_select_response_ok_run svc _ _ _ He). cbv zeta.
  rewrite Hlook. cbn [Start_loop]. do 3 eexists. split; [reflexivity|].
  cbn [trace]. rewrite <- app_assoc. reflexivity.
Qed.

(** X24: a task-created event whose [InitializeNewTask] call fails is
    registered all the same: [processTaskCreatedLog] returns the error of
    the call, and the task is found under its index although no
    aggregation session was opened for it. *)
Theorem failed_initialization_leaves_the_task_registered
    (taskLog : NewTaskCreated) (s s' : State) (e : string) :
  processTaskCreatedLog svc taskLog s = Done (Some e) s' ->
  tasks (agg s') !! cstaskmanager.TaskIndex taskLog
  = Some (cstaskmanager.Task taskLog) /\
  exists c : Call,
    is_InitializeNewTask c = true /\
    trace s' = trace s ++ [c] /\
    InitializeNewTask_ret svc (trace s') = Some e.
Proof.
  rewrite processTaskCreatedLog_run. cbv zeta. intros [= He <-].
  cbn [agg trace with_task tasks]. split; [apply lookup_insert_eq|].
  eexists. split; [|split; [reflexivity|exact He]]. reflexivity.
Qed.

End LoopRuns.

Section Payload.
Context `{Imports}.

(** X11: the proof sent on chain carries one converted key per key of the
    aggregation result, in the result's order, for the non-signers and for
    the quorums alike, and the four index arrays of the result as they
    are. *)
Theorem proof_payload_follows_the_result
    (blsAggServiceResp : blsagg.BlsAggregationServiceResponse) :
  let p := nonSignerStakesAndSignature_of blsAggServiceResp in
  cstaskmanager.NonSignerPubkeys p
  = map ConvertToBN254G1Point (blsagg.NonSignersPubkeysG1 blsAggServiceResp) /\
  cstaskmanager.QuorumApks p
  = map ConvertToBN254G1Point (blsagg.QuorumApksG1 blsAggServiceResp) /\
  length (cstaskmanager.NonSignerPubkeys p)
  = length (blsagg.NonSignersPubkeysG1 blsAggServiceResp) /\
  length (cstaskmanager.QuorumApks p)
  = length (blsagg.QuorumApksG1 blsAggServiceResp) /\
  cstaskmanager.NonSignerQuorumBitmapIndices p
  = blsagg.NonSignerQuorumBitmapIndices blsAggServiceResp /\
  cstaskmanager.QuorumApkIndices p
  = blsagg.QuorumApkIndices blsAggServiceResp /\
  cstaskmanager.TotalStakeIndices p
  = blsagg.TotalStakeIndices blsAggServiceResp /\
  cstaskmanager.NonSignerStakeIndices p
  = blsagg.NonSignerStakeIndices blsAggServiceResp.
Proof.
  cbv zeta. unfold nonSignerStakesAndSignature_of.
  cbn [cstaskmanager.NonSignerPubkeys cstaskmanager.QuorumApks
       cstaskmanager.NonSignerQuorumBitmapIndices
       cstaskmanager.QuorumApkIndices cstaskmanager.TotalStakeIndices
       cstaskmanager.NonSignerStakeIndices].
  rewrite !convert_points_map, !length_map. done.
Qed.

End Payload.

(** * Building the aggregator *)

Section Constructor.
Context `{Imports}.

(** X12: [NewAggregator] returns an aggregator and a nil error when all
    four builders succeed, and a nil aggregator with the error of a
    builder when one fails, never both and never neither. The aggregator
    returned has the server address of the configuration, the two channels
    made for it, and two empty maps. *)
Theorem NewAggregator_returns_aggregator_or_error (c : constructor.Config)
    (b : constructor.Built) (chCreated chResponded : Chan) :
  let r := snd (constructor.NewAggregator c b chCreated chResponded) in
  (Forall (eq None) (constructor.build_errors b) /\
   exists a : Aggregator,
     r = (Some a, None) /\
     serverIpPortAddr a = constructor.AggregatorServerIpPortAddr c /\
     newTaskCreatedChan a = chCreated /\
     newTaskRespondedChan a = chResponded /\
     tasks a = ∅ /\
     taskResponses a = ∅) \/
  (exists e : string,
     In (Some e) (constructor.build_errors b) /\ r = (None, Some e)).
Proof.
  cbv zeta. unfold constructor.NewAggregator, constructor.build_errors.
  destruct (constructor.avsReader_err b) as [e|];
    [right; exists e; cbn; tauto|].
  destruct (constructor.avsWriter_err b) as [e|];
    [right; exists e; cbn; tauto|].
  destruct (constructor.avsSubscriber_err b) as [e|];
    [right; exists e; cbn; tauto|].
  destruct (constructor.clients_err b) as [e|];
    [right; exists e; cbn; tauto|].
  left. split; [by repeat constructor|]. by eexists.
Qed.

(** X13: when a builder fails and those before it have succeeded,
    [NewAggregator] has called the builders up to the failing one and no
    later one, logs the failure once, as its last call, and returns that
    builder's error with a nil aggregator. *)
Theorem NewAggregator_stops_at_first_failure (c : constructor.Config)
    (b : constructor.Built) (chCreated chResponded : Chan) (i : nat)
    (e : string) :
  constructor.build_errors b !! i = Some (Some e) ->
  (forall j, j < i -> constructor.build_errors b !! j = Some None) ->
  constructor.NewAggregator c b chCreated chResponded
  = (take (S i) (constructor.builds c)
       ++ [constructor.failure_log i (Some e)],
     (None, Some e)).
Proof.
  unfold constructor.NewAggregator, constructor.build_errors.
  intros Hi Hbefore.
  destruct i as [|[|[|[|i]]]]; cbn in Hi; [| | | |discriminate];
    injection Hi as Hi.
  - by rewrite Hi.
  - pose proof (Hbefore 0 ltac:(lia)) as H0. cbn in H0. injection H0 as H0.
    by rewrite H0, Hi.
  - pose proof (Hbefore 0 ltac:(lia)) as H0. cbn in H0. injection H0 as H0.
    pose proof (Hbefore 1 ltac:(lia)) as H1. cbn in H1. injection H1 as H1.
    by rewrite H0, H1, Hi.
  - pose proof (Hbefore 0 ltac:(lia)) as H0. cbn in H0. injection H0 as H0.
    pose proof (Hbefore 1 ltac:(lia)) as H1. cbn in H1. injection H1 as H1.
    pose proof (Hbefore 2 ltac:(lia)) as H2. cbn in H2. injection H2 as H2.
    by rewrite H0, H1, H2, Hi.
Qed.

End Constructor.

(** * The node *)

Section Node.
Context {Multiaddr Peer : Type}.
Variable NewMultiaddr : string -> Multiaddr * error.
Variable HeadNodeLabel : string.

Lemma getBootNodeAddresses_from_parsed (addrs : list string) :
  forall out : list Multiaddr,
    forallb (p2p.parses NewMultiaddr) addrs = true ->
    p2p.getBootNodeAddresses_from NewMultiaddr out addrs
    = (out ++ map (fun addr => fst (NewMultiaddr addr)) addrs, None).
Proof.
  induction addrs as [|a addrs IH]; intros out Hall; cbn.
  - by rewrite app_nil_r.
  - cbn in Hall. apply andb_prop in Hall as [Ha Hall].
    unfold p2p.parses in Ha.
    destruct (NewMultiaddr a) as [m [e|]]; [discriminate|].
    rewrite (IH _ Hall). by rewrite <- app_assoc.
Qed.

Lemma getBootNodeAddresses_from_failure (pre post : list string) (a : string)
    (m : Multiaddr) (e : string) :
  forall out : list Multiaddr,
    forallb (p2p.parses NewMultiaddr) pre = true ->
    NewMultiaddr a = (m, Some e) ->
    p2p.getBootNodeAddresses_from NewMultiaddr out (pre ++ a :: post)
    = ([], Some (p2p.Errorf "could not parse multiaddress (addr: %s): %w"
                            m e)).
Proof.
  induction pre as [|b pre IH]; intros out Hpre Ha; cbn.
  - by rewrite Ha.
  - cbn in Hpre. apply andb_prop in Hpre as [Hb Hpre].
    unfold p2p.parses in Hb.
    destruct (NewMultiaddr b) as [mb [eb|]]; [discriminate|].
    by apply IH.
Qed.

Lemma getBootNodeAddresses_from_error (addrs : list string) :
  forall out : list Multiaddr,
    forallb (p2p.parses NewMultiaddr) addrs = false ->
    exists err,
      p2p.getBootNodeAddresses_from NewMultiaddr out addrs = ([], Some err).
Proof.
  induction addrs as [|a addrs IH]; intros out Hsome; [discriminate|].
  cbn in *. unfold p2p.parses in Hsome at 1.
  destruct (NewMultiaddr a) as [m [e|]]; [by eexists|].
  by apply IH.
Qed.

(** X14: [getBootNodeAddresses] returns a nil error exactly when every
    address parses. It then returns the parsed addresses, one per input
    address and in the order of the input; otherwise it returns the nil
    slice and an error. The empty input gives the nil slice and no error. *)
Theorem getBootNodeAddresses_all_or_nothing (addrs : list string) :
  (snd (p2p.getBootNodeAddresses NewMultiaddr addrs) = None <->
   forallb (p2p.parses NewMultiaddr) addrs = true) /\
  (forallb (p2p.parses NewMultiaddr) addrs = true ->
   p2p.getBootNodeAddresses NewMultiaddr addrs
   = (map (fun addr => fst (NewMultiaddr addr)) addrs, None)) /\
  (forallb (p2p.parses NewMultiaddr) addrs = false ->
   fst (p2p.getBootNodeAddresses NewMultiaddr addrs) = []) /\
  p2p.getBootNodeAddresses NewMultiaddr [] = ([], None).
Proof.
  unfold p2p.getBootNodeAddresses.
  destruct (forallb (p2p.parses NewMultiaddr) addrs) eqn:Hall.
  - rewrite (getBootNodeAddresses_from_parsed _ _ Hall). cbn. by repeat split.
  - destruct (getBootNodeAddresses_from_error _ [] Hall) as [err ->]. cbn.
    repeat split; try done.
Qed.

(** X15: at the first address that does not parse, [getBootNodeAddresses]
    returns the nil slice and an error that wraps the parser's error.
    What the error shows for the address is the value that
    [NewMultiaddr] returned with its error, and the addresses after the
    failing one play no part. *)
Theorem getBootNodeAddresses_first_failure (pre post : list string)
    (a : string) (m : Multiaddr) (e : string) :
  forallb (p2p.parses NewMultiaddr) pre = true ->
  NewMultiaddr a = (m, Some e) ->
  p2p.getBootNodeAddresses NewMultiaddr (pre ++ a :: post)
  = ([], Some (p2p.Errorf "could not parse multiaddress (addr: %s): %w" m e)).
Proof. apply getBootNodeAddresses_from_failure. Qed.

(** The five steps of [RunP2P] that can fail have all succeeded. *)
Lemma RunP2P_cases (w : p2p.World Peer) (cfg : p2p.Config) :
  let all_ok :=
    snd (p2p.filepath_Abs w (p2p.Workspace cfg)) = None /\
    snd (p2p.Peers_ret w) = None /\
    forallb (p2p.parses NewMultiaddr) (p2p.BootNodes cfg) = true /\
    p2p.host_New_ret w = None /\
    p2p.node_New_ret w = None in
  let host_made :=
    snd (p2p.filepath_Abs w (p2p.Workspace cfg)) = None /\
    snd (p2p.Peers_ret w) = None /\
    forallb (p2p.parses NewMultiaddr) (p2p.BootNodes cfg) = true /\
    p2p.host_New_ret w = None in
  let r := p2p.RunP2P NewMultiaddr HeadNodeLabel w cfg in
  (all_ok /\ snd r = p2p.success /\
   p2p.count p2p.is_LogError (fst r) = 0 /\
   p2p.count p2p.is_go (fst r) = 1 /\
   exists tr, fst r = tr ++ [p2p.go_node_main (p2p.role_of HeadNodeLabel cfg);
                            p2p.host_Close] /\
              p2p.count p2p.is_host_Close tr = 0) \/
  (~ all_ok /\ host_made /\ snd r = p2p.failure /\
   p2p.count p2p.is_LogError (fst r) = 1 /\
   p2p.count p2p.is_go (fst r) = 0 /\
   exists tr, fst r = tr ++ [p2p.host_Close] /\
              p2p.count p2p.is_host_Close tr = 0) \/
  (~ all_ok /\ ~ host_made /\ snd r = p2p.failure /\
   p2p.count p2p.is_LogError (fst r) = 1 /\
   p2p.count p2p.is_go (fst r) = 0 /\
   p2p.count p2p.is_host_Close (fst r) = 0).
Proof.
  cbv zeta. unfold p2p.RunP2P.
  destruct (p2p.filepath_Abs w (p2p.Workspace cfg)) as [workspace [e1|]];
    [right; right; cbn; repeat split; intros (? & _); discriminate|].
  destruct (p2p.Peers_ret w) as [peers [e2|]];
    [right; right; cbn; repeat split; intros (_ & ? & _); discriminate|].
  destruct (forallb (p2p.parses NewMultiaddr) (p2p.BootNodes cfg)) eqn:Hboot.
  - unfold p2p.getBootNodeAddresses.
    rewrite (getBootNodeAddresses_from_parsed _ [] Hboot). cbn [app].
    destruct (p2p.host_New_ret w) as [e4|].
    { right; right. cbn.
      split; [intros (_ & _ & _ & ? & _); discriminate|].
      split; [intros (_ & _ & _ & ?); discriminate|]. done. }
    destruct (p2p.node_New_ret w) as [e5|].
    + right; left. cbn.
      split; [intros (_ & _ & _ & _ & ?); discriminate|].
      do 4 (split; [done|]).
      eexists [_; _; _; _; _; _; _; _; _; _]. split; reflexivity.
    + left. cbn. do 4 (split; [done|]).
      eexists [_; _; _; _; _; _; _; _; _]. split; reflexivity.
  - destruct (getBootNodeAddresses_from_error _ [] Hboot) as [err Herr].
    unfold p2p.getBootNodeAddresses. rewrite Herr.
    right; right. cbn.
    repeat split; intros (_ & _ & ? & _); discriminate.
Qed.

(** X16: [RunP2P] returns [success] exactly when the workspace path is
    made absolute, the dial-back peers are read, every boot node address
    parses, and the host and the node are created; in every other case it
    returns [failure]. *)
Theorem RunP2P_succeeds_iff_every_step_does (w : p2p.World Peer)
    (cfg : p2p.Config) :
  let r := p2p.RunP2P NewMultiaddr HeadNodeLabel w cfg in
  (snd r = p2p.success <->
   snd (p2p.filepath_Abs w (p2p.Workspace cfg)) = None /\
   snd (p2p.Peers_ret w) = None /\
   forallb (p2p.parses NewMultiaddr) (p2p.BootNodes cfg) = true /\
   p2p.host_New_ret w = None /\
   p2p.node_New_ret w = None) /\
  (snd r = p2p.success \/ snd r = p2p.failure).
Proof.
  cbv zeta.
  destruct (RunP2P_cases w cfg)
    as [(Hok & -> & _)|[(Hno & _ & -> & _)|(Hno & _ & -> & _)]].
  - split; [done|by left].
  - split; [split; [discriminate|done]|by right].
  - split; [split; [discriminate|done]|by right].
Qed.

(** X17: a run of [RunP2P] that fails logs one error and does not start
    the node goroutine; a run that succeeds logs no error and starts the
    goroutine once. *)
Theorem RunP2P_failure_logs_once_and_starts_nothing (w : p2p.World Peer)
    (cfg : p2p.Config) :
  let r := p2p.RunP2P NewMultiaddr HeadNodeLabel w cfg in
  (snd r = p2p.failure ->
   p2p.count p2p.is_LogError (fst r) = 1 /\ p2p.count p2p.is_go (fst r) = 0) /\
  (snd r = p2p.success ->
   p2p.count p2p.is_LogError (fst r) = 0 /\ p2p.count p2p.is_go (fst r) = 1).
Proof.
  cbv zeta.
  destruct (RunP2P_cases w cfg)
    as [(_ & -> & -> & -> & _)
       |[(_ & _ & -> & -> & -> & _)|(_ & _ & -> & -> & -> & _)]];
    split; done.
Qed.

(** X18: [RunP2P] closes the host exactly when it has created it, once
    and as its last call. This includes the run that succeeds: there the
    host is closed right after the node goroutine has been started. *)
Theorem RunP2P_closes_the_host_on_return (w : p2p.World Peer)
    (cfg : p2p.Config) :
  let r := p2p.RunP2P NewMultiaddr HeadNodeLabel w cfg in
  let host_made :=
    snd (p2p.filepath_Abs w (p2p.Workspace cfg)) = None /\
    snd (p2p.Peers_ret w) = None /\
    forallb (p2p.parses NewMultiaddr) (p2p.BootNodes cfg) = true /\
    p2p.host_New_ret w = None in
  (host_made ->
   p2p.count p2p.is_host_Close (fst r) = 1 /\
   exists tr, fst r = tr ++ [p2p.host_Close]) /\
  (~ host_made -> p2p.count p2p.is_host_Close (fst r) = 0) /\
  (snd r = p2p.success ->
   exists tr,
     fst r = tr ++ [p2p.go_node_main (p2p.role_of HeadNodeLabel cfg);
                    p2p.host_Close]).
Proof.
  cbv zeta.
  destruct (RunP2P_cases w cfg)
    as [(Hok & Hcode & _ & _ & tr & Htr & Hcount)
       |[(_ & Hhost & Hcode & _ & _ & tr & Htr & Hcount)
        |(_ & Hno & Hcode & _ & _ & Hcount)]].
  - split; [|split].
    + intros _. rewrite Htr. split.
      * unfold p2p.count in *. rewrite List.filter_app, length_app, Hcount.
        reflexivity.
      * exists (tr ++ [p2p.go_node_main (p2p.role_of HeadNodeLabel cfg)]).
        by rewrite <- app_assoc.
    + intros Hno. destruct Hno. tauto.
    + intros _. by exists tr.
  - split; [|split].
    + intros _. rewrite Htr. split.
      * unfold p2p.count in *. rewrite List.filter_app, length_app, Hcount.
        reflexivity.
      * by exists tr.
    + intros Hno. by destruct Hno.
    + rewrite Hcode. discriminate.
  - split; [|split].
    + intros Hhost. by destruct Hno.
    + done.
    + rewrite Hcode. discriminate.
Qed.


End Node.

(** * The API server *)

Section Server.

Lemma ServeHTTP_run (calls : list server.WriterCall) :
  forall w : server.wrappedWriter,
    server.ServeHTTP calls w
    = {| server.status := default (server.status w) (server.last_status calls);
         server.forwarded := server.forwarded w ++ calls |}.
Proof.
  unfold server.ServeHTTP.
  induction calls as [|c calls IH]; intros w; cbn [fold_left].
  - cbn. rewrite app_nil_r. by destruct w.
  - rewrite IH. cbn [server.last_status].
    destruct (server.last_status calls) as [st|]; cbn.
    + f_equal. destruct c; cbn; by rewrite <- app_assoc.
    + destruct c; cbn; by rewrite <- app_assoc.
Qed.

(** X20: the logging middleware passes every call of the handler on to
    the writer, unchanged and in order. The status it logs is the status
    of the handler's last [WriteHeader] call, and 200 when the handler
    never calls [WriteHeader]; the duration it logs is the time between
    its two readings of the clock. *)
Theorem logging_reports_the_last_status (next : list server.WriterCall)
    (method path : string) (start finish : Z) :
  let r := server.logging next method path start finish in
  fst r = next /\
  server.log_status (snd r) = default 200%Z (server.last_status next) /\
  server.log_method (snd r) = method /\
  server.log_path (snd r) = path /\
  server.log_duration (snd r) = (finish - start)%Z.
Proof.
  cbv zeta. unfold server.logging. rewrite ServeHTTP_run. by cbn.
Qed.

Lemma waitForServer_cons (url : string) (a : option Z * error)
    (answers : list (option Z * error)) :
  server.waitForServer url (a :: answers) =
  if server.is_nil_nil a then ([server.http_Get url], server.NilResponse)
  else if server.is_up a
  then ([server.http_Get url; server.Body_Close;
         server.Logger_Info "App is Running. CTRL+C to quit."],
        server.Returned)
  else
    (server.http_Get url ::
       (if server.has_response a then [server.Body_Close] else []) ++
       server.Sleep (1 * time.Second)%Z ::
       fst (server.waitForServer url answers),
     snd (server.waitForServer url answers)).
Proof.
  destruct a as [[code|] [e|]]; cbn [server.waitForServer server.is_nil_nil
    server.is_up server.has_response fst];
    try destruct (code =? server.StatusOK)%Z;
    try destruct (server.waitForServer url answers); reflexivity.
Qed.

(** X21: [waitForServer] closes the body of every response it receives,
    once: the bodies closed are as many as the responses among the answers
    it has asked for. It asks for no more answers than there are, and it
    sleeps once after each answer on which it neither returns nor
    stops. *)
Theorem waitForServer_closes_every_response (url : string)
    (answers : list (option Z * error)) :
  let calls := fst (server.waitForServer url answers) in
  let exit := snd (server.waitForServer url answers) in
  let asked := server.count server.is_Get calls in
  asked <= length answers /\
  server.count server.is_Close calls
  = length (List.filter server.has_response (take asked answers)) /\
  server.count server.is_Sleep calls
  + (match exit with server.Polling => 0 | _ => 1 end) = asked.
Proof.
  cbv zeta. induction answers as [|a answers IH]; [cbn; lia|].
  rewrite waitForServer_cons. destruct IH as (Hle & Hclose & Hsleep).
  destruct a as [[code|] [e|]];
    cbn [server.is_nil_nil server.is_up server.has_response fst];
    try destruct (code =? server.StatusOK)%Z;
    unfold server.count in *;
    cbn -[server.waitForServer Z.mul time.Second];
    rewrite ?Hclose, ?take_0; cbn [List.filter length]; lia.
Qed.

(** X22: [waitForServer] returns on the first answer that has no error
    and status 200, when every answer before it carries an error or a
    response. Up to there it has asked once per answer and slept one
    second after each answer but the last, and the answers after it play
    no part. *)
Theorem waitForServer_returns_on_first_ok (url : string)
    (pre post : list (option Z * error)) (a : option Z * error) :
  forallb (fun x => negb (server.is_up x) && negb (server.is_nil_nil x)) pre
    = true ->
  server.is_up a = true ->
  let r := server.waitForServer url (pre ++ a :: post) in
  snd r = server.Returned /\
  server.count server.is_Get (fst r) = S (length pre) /\
  List.filter server.is_Sleep (fst r)
  = repeat (server.Sleep 1000000000%Z) (length pre) /\
  r = server.waitForServer url (pre ++ [a]).
Proof.
  intros Hpre Ha. cbv zeta.
  induction pre as [|b pre IH]; cbn [app].
  - rewrite !waitForServer_cons, Ha.
    destruct (server.is_nil_nil a) eqn:Hnil;
      [destruct a as [[?|] [?|]]; discriminate|].
    by cbn.
  - cbn [forallb] in Hpre. apply andb_prop in Hpre as [Hb Hpre].
    apply andb_prop in Hb as [Hup Hnil].
    apply negb_true_iff in Hup, Hnil.
    rewrite !waitForServer_cons, Hup, Hnil.
    destruct (IH Hpre) as (Hexit & Hget & Hsleep & Hsame).
    cbn [fst snd]. split; [exact Hexit|].
    unfold server.count in *. split; [|split].
    + destruct (server.has_response b); cbn; by rewrite Hget.
    + destruct (server.has_response b); cbn; by rewrite Hsleep.
    + by rewrite Hsame.
Qed.

(** X23: [openbrowser] starts one command on linux, windows and darwin
    and none on any other platform; the last argument of the command is
    the url. It calls [Logger.Fatal], once, exactly when the platform is
    another one or the command could not be started. *)
Theorem openbrowser_starts_at_most_one_command (GOOS url : string)
    (start_err : error) :
  let calls := server.openbrowser GOOS url start_err in
  length (List.filter server.is_exec calls)
  = (if server.supported GOOS then 1 else 0) /\
  length (List.filter server.is_Fatal calls)
  = (if server.supported GOOS
     then match start_err with Some _ => 1 | None => 0 end
     else 1) /\
  (forall name args, In (server.exec_Start name args) calls ->
                     last args = Some url).
Proof.
  cbv zeta. unfold server.openbrowser, server.supported.
  destruct (String.eqb GOOS "linux");
    [|destruct (String.eqb GOOS "windows");
      [|destruct (String.eqb GOOS "darwin")]];
    destruct start_err as [e|]; cbn;
    (split; [reflexivity|]; split; [reflexivity|]);
    intros name args Hin;
    repeat (destruct Hin as [Hin|Hin]; [by inversion Hin|]);
    destruct Hin.
Qed.

End Server.

(** * Examples for the properties above *)

Lemma sample_sched_runs :
  sample_run sample_sched
  = Done (Selecting (waiting_subs (sample_run sample_sched)))
         (final_state (sample_run sample_sched)).
Proof. vm_compute. reflexivity. Qed.

Lemma sample_sched_distinct_runs :
  sample_run sample_sched_distinct
  = Done (Selecting (waiting_subs (sample_run sample_sched_distinct)))
         (final_state (sample_run sample_sched_distinct)).
Proof. vm_compute. reflexivity. Qed.

Lemma registry_holds_last_created_task_witness :
  sample_run sample_sched
  = Done (Selecting (waiting_subs (sample_run sample_sched)))
         (final_state (sample_run sample_sched)) /\
  tasks (agg (final_state (sample_run sample_sched))) !! 5%Z
  = Some (sample_task 4) /\
  tasks (agg (final_state (sample_run sample_sched))) !! 8%Z
  = tasks (agg sample_state) !! 8%Z.
Proof.
  split; [exact sample_sched_runs|]. split.
  - exact (registry_holds_last_created_task _ sample_sched _ _ _ _ 5%Z
             sample_sched_runs).
  - exact (registry_holds_last_created_task _ sample_sched _ _ _ _ 8%Z
             sample_sched_runs).
Defined.

Lemma distinct_indices_are_all_registered_witness :
  NoDup (map cstaskmanager.TaskIndex (created_logs sample_sched_distinct)) /\
  In (sample_log 6 9) (created_logs sample_sched_distinct) /\
  tasks (agg (final_state (sample_run sample_sched_distinct))) !! 6%Z
  = Some (sample_task 9).
Proof.
  assert (Hnd : NoDup (map cstaskmanager.TaskIndex
                         (created_logs sample_sched_distinct))).
  { cbn. apply NoDup_cons_2; [compute_done|].
    apply NoDup_cons_2; [compute_done|]. apply NoDup_singleton. }
  assert (Hin : In (sample_log 6 9) (created_logs sample_sched_distinct))
    by (cbn; tauto).
  split; [exact Hnd|]. split; [exact Hin|].
  exact (distinct_indices_are_all_registered _ sample_sched_distinct _ _ _ _
           Hnd sample_sched_distinct_runs (sample_log 6 9) Hin).
Defined.

Lemma registry_never_shrinks_witness :
  is_Some (tasks (agg sample_state_5) !! 5%Z) /\
  is_Some
    (tasks (agg (final_state
       (Start_loop (sample_Services None None)
          [newTaskCreatedChan_recv (sample_log 6 9);
           ResponseChannel_recv (sample_resp (Some "task expired") 6 171)]
          sample_subs sample_state_5))) !! 5%Z).
Proof.
  assert (Hreg : is_Some (tasks (agg sample_state_5) !! 5%Z))
    by (exists (sample_task 3); reflexivity).
  split; [exact Hreg|].
  exact (registry_never_shrinks (sample_Services None None) _ sample_subs
           sample_state_5 5%Z Hreg).
Defined.

Lemma exactly_one_call_per_event_witness :
  sample_run sample_sched
  = Done (Selecting (waiting_subs (sample_run sample_sched)))
         (final_state (sample_run sample_sched)) /\
  count_calls is_SendAggregatedResponse
    (trace (final_state (sample_run sample_sched))) = 0 + 1 /\
  count_calls is_InitializeNewTask
    (trace (final_state (sample_run sample_sched))) = 0 + 3.
Proof.
  split; [exact sample_sched_runs|].
  exact (exactly_one_call_per_event _ sample_sched _ _ _ _ sample_sched_runs).
Defined.

Lemma nothing_is_processed_after_the_end_witness :
  ends_loop (ResponseChannel_recv (sample_resp (Some "task expired") 5 171))
  = true /\
  sample_run
    ([newTaskCreatedChan_recv (sample_log 5 3)]
       ++ ResponseChannel_recv (sample_resp (Some "task expired") 5 171)
       :: [newTaskCreatedChan_recv (sample_log 6 9); ctx_Done])
  = sample_run
      ([newTaskCreatedChan_recv (sample_log 5 3)]
         ++ [ResponseChannel_recv (sample_resp (Some "task expired") 5 171)]).
Proof.
  split; [reflexivity|].
  exact (nothing_is_processed_after_the_end _
           [newTaskCreatedChan_recv (sample_log 5 3)]
           [newTaskCreatedChan_recv (sample_log 6 9); ctx_Done]
           (ResponseChannel_recv (sample_resp (Some "task expired") 5 171))
           sample_subs sample_state eq_refl).
Defined.

Lemma collaborator_errors_never_end_the_loop_witness :
  forallb (fun ev => negb (ends_loop ev)) sample_sched = true /\
  exists (subs' : Subs) (s' : @State sample_Imports),
    sample_run sample_sched = Done (Selecting subs') s'.
Proof.
  split; [reflexivity|].
  exact (collaborator_errors_never_end_the_loop _ sample_sched sample_subs
           sample_state eq_refl).
Defined.

Lemma registered_task_is_the_one_submitted_witness :
  exists (taskResponse : TaskResponse) (errlog : list (@Call sample_Imports))
         (s2 : @State sample_Imports),
    sample_run
      ((newTaskCreatedChan_recv (sample_log 7 4)
          :: [newTaskCreatedChan_recv (sample_log 5 3)])
         ++ [ResponseChannel_recv (sample_resp None 7 171)])
    = Done (Selecting sample_subs) s2 /\
    trace s2
    = trace (final_state
               (sample_run [newTaskCreatedChan_recv (sample_log 7 4);
                            newTaskCreatedChan_recv (sample_log 5 3)])) ++
      [LogInfo "Received response from blsAggregationService";
       LogInfo "Threshold reached. Sending aggregated response onchain.";
       SendAggregatedResponse (sample_task 4) taskResponse
         (nonSignerStakesAndSignature_of (sample_resp None 7 171))] ++ errlog.
Proof.
  assert (Hrun : sample_run [newTaskCreatedChan_recv (sample_log 7 4);
                             newTaskCreatedChan_recv (sample_log 5 3)]
                 = Done (Selecting sample_subs)
                     (final_state
                        (sample_run [newTaskCreatedChan_recv (sample_log 7 4);
                                     newTaskCreatedChan_recv (sample_log 5 3)])))
    by (vm_compute; reflexivity).
  exact (registered_task_is_the_one_submitted _ (sample_log 7 4)
           [newTaskCreatedChan_recv (sample_log 5 3)]
           (sample_resp None 7 171) sample_subs sample_subs sample_state _
           eq_refl eq_refl eq_refl Hrun).
Defined.

Lemma NewAggregator_stops_at_first_failure_witness :
  constructor.build_errors sample_Built !! 2
  = Some (Some "dial tcp: connection refused") /\
  (forall j, j < 2 -> constructor.build_errors sample_Built !! j = Some None) /\
  @constructor.NewAggregator sample_Imports sample_Config sample_Built 1%Z 2%Z
  = ([constructor.BuildAvsReaderFromConfig sample_Config;
      constructor.BuildAvsWriterFromConfig sample_Config;
      constructor.BuildAvsSubscriberFromConfig sample_Config;
      constructor.Logger_Errorf "Cannot create avsSubscriber"
        (Some "dial tcp: connection refused")],
     (None, Some "dial tcp: connection refused")).
Proof.
  assert (Hbefore : forall j, j < 2 ->
            constructor.build_errors sample_Built !! j = Some None).
  { intros [|[|j]] Hj; [reflexivity|reflexivity|lia]. }
  split; [reflexivity|]. split; [exact Hbefore|].
  exact (NewAggregator_stops_at_first_failure sample_Config sample_Built
           1%Z 2%Z 2 "dial tcp: connection refused" eq_refl Hbefore).
Defined.

Lemma getBootNodeAddresses_all_or_nothing_witness :
  forallb (p2p.parses sample_NewMultiaddr) ["/ip4/10.0.0.1/tcp/9527"; "/dns4/boot"]
  = true /\
  p2p.getBootNodeAddresses sample_NewMultiaddr
    ["/ip4/10.0.0.1/tcp/9527"; "/dns4/boot"]
  = ([22%Z; 10%Z], None).
Proof.
  split; [reflexivity|].
  exact (proj1 (proj2 (getBootNodeAddresses_all_or_nothing sample_NewMultiaddr
                         ["/ip4/10.0.0.1/tcp/9527"; "/dns4/boot"]))
           eq_refl).
Defined.

Lemma getBootNodeAddresses_first_failure_witness :
  forallb (p2p.parses sample_NewMultiaddr) ["/ip4/10.0.0.1/tcp/9527"] = true /\
  sample_NewMultiaddr "10.0.0.2:9527" = (0%Z, Some "must begin with /") /\
  p2p.getBootNodeAddresses sample_NewMultiaddr
    (["/ip4/10.0.0.1/tcp/9527"] ++ "10.0.0.2:9527" :: ["/dns4/boot"])
  = ([], Some (p2p.Errorf "could not parse multiaddress (addr: %s): %w"
                          0%Z "must begin with /")).
Proof.
  split; [reflexivity|]. split; [reflexivity|].
  exact (getBootNodeAddresses_first_failure sample_NewMultiaddr
           ["/ip4/10.0.0.1/tcp/9527"] ["/dns4/boot"] "10.0.0.2:9527"
           0%Z "must begin with /" eq_refl eq_refl).
Defined.

Lemma RunP2P_succeeds_iff_every_step_does_witness :
  snd (p2p.RunP2P sample_NewMultiaddr "head" (sample_World None None)
         (sample_p2p_Config ["/dns4/boot"])) = p2p.success /\
  snd (p2p.RunP2P sample_NewMultiaddr "head"
         (sample_World None (Some "could not create node"))
         (sample_p2p_Config ["/dns4/boot"])) <> p2p.success.
Proof.
  split.
  - apply (proj1 (RunP2P_succeeds_iff_every_step_does sample_NewMultiaddr
                    "head" (sample_World None None)
                    (sample_p2p_Config ["/dns4/boot"]))).
    repeat split.
  - intros Hcode.
    apply (proj1 (RunP2P_succeeds_iff_every_step_does sample_NewMultiaddr
                    "head" (sample_World None (Some "could not create node"))
                    (sample_p2p_Config ["/dns4/boot"]))) in Hcode.
    destruct Hcode as (_ & _ & _ & _ & Hnode). discriminate Hnode.
Defined.

Lemma RunP2P_failure_logs_once_and_starts_nothing_witness :
  snd (p2p.RunP2P sample_NewMultiaddr "head" (sample_World None None)
         (sample_p2p_Config ["boot"])) = p2p.failure /\
  p2p.count p2p.is_LogError
    (fst (p2p.RunP2P sample_NewMultiaddr "head" (sample_World None None)
            (sample_p2p_Config ["boot"]))) = 1 /\
  p2p.count p2p.is_go
    (fst (p2p.RunP2P sample_NewMultiaddr "head" (sample_World None None)
            (sample_p2p_Config ["boot"]))) = 0.
Proof.
  split; [reflexivity|].
  exact (proj1 (RunP2P_failure_logs_once_and_starts_nothing
                  sample_NewMultiaddr "head" (sample_World None None)
                  (sample_p2p_Config ["boot"])) eq_refl).
Defined.

Lemma RunP2P_closes_the_host_on_return_witness :
  snd (p2p.RunP2P sample_NewMultiaddr "head" (sample_World None None)
         (sample_p2p_Config ["/dns4/boot"])) = p2p.success /\
  exists tr,
    fst (p2p.RunP2P sample_NewMultiaddr "head" (sample_World None None)
           (sample_p2p_Config ["/dns4/boot"]))
    = tr ++ [p2p.go_node_main p2p.HeadNode; p2p.host_Close].
Proof.
  split; [reflexivity|].
  exact (proj2 (proj2 (RunP2P_closes_the_host_on_return sample_NewMultiaddr
                         "head" (sample_World None None)
                         (sample_p2p_Config ["/dns4/boot"]))) eq_refl).
Defined.

Lemma waitForServer_returns_on_first_ok_witness :
  forallb (fun x => negb (server.is_up x) && negb (server.is_nil_nil x))
    [(None, Some "connection refused"); (Some 503%Z, None)] = true /\
  server.is_up (Some 200%Z, None) = true /\
  snd (server.waitForServer "http://localhost:8080"
         ([(None, Some "connection refused"); (Some 503%Z, None)]
            ++ (Some 200%Z, None) :: [(Some 500%Z, None)]))
  = server.Returned /\
  server.count server.is_Get
    (fst (server.waitForServer "http://localhost:8080"
            ([(None, Some "connection refused"); (Some 503%Z, None)]
               ++ (Some 200%Z, None) :: [(Some 500%Z, None)]))) = 3.
Proof.
  split; [reflexivity|]. split; [reflexivity|].
  destruct (waitForServer_returns_on_first_ok "http://localhost:8080"
              [(None, Some "connection refused"); (Some 503%Z, None)]
              [(Some 500%Z, None)] (Some 200%Z, None) eq_refl eq_refl)
    as (Hexit & Hget & _ & _).
  split; [exact Hexit|exact Hget].
Defined.

Lemma failed_initialization_leaves_the_task_registered_witness :
  exists s' : @State sample_Imports,
    processTaskCreatedLog (sample_Services (Some "task already initialized") None)
      (sample_log 5 4) sample_state_5
    = Done (Some "task already initialized") s' /\
    tasks (agg s') !! 5%Z = Some (sample_task 4).
Proof.
  eexists. split; [exact (processTaskCreatedLog_run _ _ _)|].
  exact (proj1 (failed_initialization_leaves_the_task_registered
                  (sample_Services (Some "task already initialized") None)
                  (sample_log 5 4) sample_state_5 _
                  "task already initialized"
                  (processTaskCreatedLog_run _ _ _))).
Defined.
